(** * A shallow embedding of [app.py]: the web-search agent

    The development follows the three coroutines of the source,
    [search_and_parse], [run_conversation] and [generate_stream].
    The collaborators the source calls (the model service, the search
    provider, the page servers, trafilatura's [extract], the [json] module)
    are gathered in one record [env]; every theorem quantifies over it.

    A coroutine is a function in the monad [M]: it reads and updates a
    [state], appends the fragments it yields to an output list and either
    returns a value or raises.  [run_conversation] and [generate_stream] are
    asynchronous generators; their model is the run in which the consumer
    drains the generator.  Only instances of Python's [Exception] are
    modelled: cancellation ([asyncio.CancelledError]) is a [BaseException],
    no [except] clause of the source catches it, and it is left out.

    A character of a Rocq [string] stands for one code point of a Python
    [str]. *)

From Stdlib Require Import ZArith String Ascii List DecimalString.
From stdpp Require Import gmap strings list fin_maps.

Local Open Scope string_scope.
Local Open Scope list_scope.

(** ** Python values *)

(** The classes the [except] clauses of lines 70-74 tell apart, in the
    order of the clauses: an instance of [asyncio.TimeoutError]; otherwise
    an instance of [aiohttp.ClientError]; otherwise any other
    [Exception]. *)
Inductive exn_class : Type := TimeoutError | ClientError | OtherError.

(** An exception: its class and [str(e)]. *)
Record exn : Type := Exn { exn_class_of : exn_class; exn_str : string }.

Inductive outcome (A : Type) : Type :=
| Ok (a : A)
| Raise (e : exn).
Arguments Ok {A} a.
Arguments Raise {A} e.

(** A value read from decoded JSON, as far as the source looks at it:
    [None], a [str], or another value given by what [str()] prints. *)
Inductive pyval : Type :=
| PyNone
| PyStr (s : string)
| PyOther (printed : string).

(** What an f-string prints for [{v}]. *)
Definition format_value (v : pyval) : string :=
  match v with
  | PyNone => "None"
  | PyStr s => s
  | PyOther p => p
  end.

(** [str(n)] for an [int]. *)
Definition format_int (n : Z) : string := NilZero.string_of_int (Z.to_int n).

Definition nl : string := String (ascii_of_nat 10) EmptyString.

(** [s[:n]] *)
Fixpoint slice_to (n : nat) (s : string) : string :=
  match n, s with
  | S n', String a s' => String a (slice_to n' s')
  | _, _ => EmptyString
  end.

(** Truth value of [extract]'s result: [None] and [""] are false. *)
Definition truthy (t : option string) : option string :=
  match t with
  | Some (String a s) => Some (String a s)
  | _ => None
  end.

(** The dictionaries of [search_and_parse]'s result: string keys, string
    values. *)
Abbreviation page_result := (gmap string string).

(** ** The model service's data *)

Record message : Type := Message {
  role : string;
  name : option string;
  content : string
}.

Record function_delta : Type := FunctionDelta {
  fn_name : option string;
  fn_arguments : option string
}.

Record tool_call : Type := ToolCall { tc_function : option function_delta }.

Record delta : Type := Delta {
  delta_content : option string;
  delta_tool_calls : option (list tool_call)
}.

Record choice : Type := Choice { choice_delta : delta }.

Record chunk : Type := Chunk { choices : list choice }.

(** An asynchronous stream: the chunks it delivers, then either the end of
    the stream or an exception. *)
Record stream : Type := Stream {
  stream_chunks : list chunk;
  stream_failure : option exn
}.

(** [json.loads(arguments)], as far as the source looks at it: a dictionary,
    seen through [.get('query')], or a value of another type, which has no
    [get]. *)
Inductive jvalue : Type :=
| JDict (query : pyval)
| JOther (type_name : string).

(** ** The search provider's and the page servers' data *)

(** The decoded body of the search response: the ['organic'] list, each
    entry given by its ['link'] if it has one ([BodyOrganic []] when there is
    no ['organic'] key), or a body on which lines 52-53 raise. *)
Inductive search_body : Type :=
| BodyOrganic (organic : list (option string))
| BodyMalformed (e : exn).

Inductive post_outcome : Type :=
| PostRaised (e : exn)
| PostResponse (status : Z) (json : outcome search_body).

Inductive get_outcome : Type :=
| GetRaised (e : exn)
| GetResponse (status : Z) (text : outcome string).

(** ** State and environment *)

Inductive event : Type :=
| EvCreate (msgs : list message) (tools : option (list string))
| EvPost (q : pyval) (t_start t_end : nat)
| EvGet (url : string) (t_start t_end : nat).

(** The locals [messages] and [search_performed] of [run_conversation], a
    logical clock advanced by the awaited requests of the pipeline, and the
    log of the calls made to the collaborators, oldest first. *)
Record state : Type := State {
  messages : list message;
  search_performed : bool;
  now : nat;
  log : list event
}.

(** The collaborators.  A request's answer may depend on the time it is
    issued; with the answer comes the time the caller waits at the request,
    for a page until its body is read and extracted. *)
Record env : Type := Env {
  chat_completions_create : list message -> option (list string) -> outcome stream;
  json_loads : option string -> outcome jvalue;
  json_dumps : list page_result -> string;
  session_post : nat -> pyval -> post_outcome * nat;
  session_get : nat -> string -> get_outcome * nat;
  extract : string -> outcome (option string)
}.

(** ** The monad of coroutines *)

Record run (A : Type) : Type := Run {
  emitted : list string;
  final : state;
  result : outcome A
}.
Arguments Run {A} emitted final result.
Arguments emitted {A} r.
Arguments final {A} r.
Arguments result {A} r.

Definition M (A : Type) : Type := state -> run A.

Definition ret {A} (a : A) : M A := fun s => Run [] s (Ok a).

(** The run [r], after the fragments [out] have been emitted. *)
Definition emit_before {A} (out : list string) (r : run A) : run A :=
  Run (out ++ emitted r) (final r) (result r).

Definition bind {A B} (m : M A) (k : A -> M B) : M B :=
  fun s =>
    let r := m s in
    match result r with
    | Ok a => emit_before (emitted r) (k a (final r))
    | Raise e => Run (emitted r) (final r) (Raise e)
    end.

Notation "'let*' x := m 'in' k" := (bind m (fun x => k))
  (at level 10, x pattern, m at level 100, k at level 200).
Notation "m >> k" := (bind m (fun _ => k))
  (at level 90, right associativity).

Definition yield (x : string) : M unit := fun s => Run [x] s (Ok tt).

Definition raise {A} (e : exn) : M A := fun s => Run [] s (Raise e).

Definition lift {A} (o : outcome A) : M A :=
  match o with
  | Ok a => ret a
  | Raise e => raise e
  end.

Definition gets {A} (f : state -> A) : M A := fun s => Run [] s (Ok (f s)).

Definition modify (f : state -> state) : M unit :=
  fun s => Run [] (f s) (Ok tt).

(** [try: m  except Exception as e: handler e] *)
Definition try_except {A} (m : M A) (handler : exn -> M A) : M A :=
  fun s =>
    let r := m s in
    match result r with
    | Ok _ => r
    | Raise e => emit_before (emitted r) (handler e (final r))
    end.

(** [for x in xs: body x] *)
Fixpoint for_each {A} (xs : list A) (body : A -> M unit) : M unit :=
  match xs with
  | [] => ret tt
  | x :: rest => body x >> for_each rest body
  end.

(** [async for c in st: body c] *)
Definition async_for (st : stream) (body : chunk -> M unit) : M unit :=
  for_each (stream_chunks st) body >>
  match stream_failure st with
  | Some e => raise e
  | None => ret tt
  end.

(** [xs[0]] *)
Definition index0 {A} (xs : list A) : M A :=
  match xs with
  | x :: _ => ret x
  | [] => raise (Exn OtherError "list index out of range")
  end.

(** [d[k]] *)
Definition getitem (d : page_result) (k : string) : M string :=
  match d !! k with
  | Some v => ret v
  | None => raise (Exn OtherError ("'" +:+ k +:+ "'"))
  end.

Definition set_now (t : nat) (s : state) : state :=
  State (messages s) (search_performed s) t (log s).

Definition add_event (ev : event) (s : state) : state :=
  State (messages s) (search_performed s) (now s) (log s ++ [ev]).

Definition set_search_performed (b : bool) (s : state) : state :=
  State (messages s) b (now s) (log s).

Definition append_message (m : message) (s : state) : state :=
  State (messages s ++ [m]) (search_performed s) (now s) (log s).

Definition set_messages (ms : list message) (s : state) : state :=
  State ms (search_performed s) (now s) (log s).

(** The state after a request issued in [s] has been answered: the clock
    has advanced and the request is logged. *)
Definition answered (ev : event) (t : nat) (s : state) : state :=
  add_event ev (set_now t s).

(** ** [search_and_parse] *)

Section Pipeline.
Variable E : env.

(** [{"error": msg}] *)
Definition error_entry (msg : string) : page_result := {[ "error" := msg ]}.

(** [{'url': url, 'error': msg}] *)
Definition url_error (url msg : string) : page_result :=
  <[ "url" := url ]> {[ "error" := msg ]}.

(** [{'url': url, 'content': text}] *)
Definition url_content (url text : string) : page_result :=
  <[ "url" := url ]> {[ "content" := text ]}.

(** [async with session.post(...) as response], line 44: the request is
    awaited, then the response is at hand or the call has raised. *)
Definition post_request (query : pyval) : M (Z * outcome search_body) :=
  let* t := gets now in
  let '(o, d) := session_post E t query in
  modify (set_now (t + d)) >>
  modify (add_event (EvPost query t (t + d))) >>
  match o with
  | PostRaised e => raise e
  | PostResponse status json => ret (status, json)
  end.

(** Lines 43-49.  [inl] is a [return] from inside the [try]; [inr] carries
    [search_results] to the code after it. *)
Definition search_request (query : pyval) : M (list page_result + search_body) :=
  try_except
    (let* response := post_request query in
     let '(status, json) := response in
     if negb (status =? 200)%Z
     then ret (inl [error_entry ("Serper API request failed with status code "
                                  +:+ format_int status)])
     else let* search_results := lift json in
          ret (inr search_results))
    (fun e => ret (inl [error_entry ("Error during search API request: "
                                      +:+ exn_str e)])).

(** Lines 52-53: [urls] holds the links of the organic results that have
    one. *)
Definition urls_of (search_results : search_body) : M (list string) :=
  match search_results with
  | BodyOrganic organic_results => ret (omap id organic_results)
  | BodyMalformed e => raise e
  end.

(** [async with session.get(url, timeout=10) as page_response], line 59. *)
Definition get_request (url : string) : M (Z * outcome string) :=
  let* t := gets now in
  let '(o, d) := session_get E t url in
  modify (set_now (t + d)) >>
  modify (add_event (EvGet url t (t + d))) >>
  match o with
  | GetRaised e => raise e
  | GetResponse status text => ret (status, text)
  end.

(** Lines 59-69, the body of the [try]. *)
Definition fetch_body (url : string) : M page_result :=
  let* page_response := get_request url in
  let '(status, text) := page_response in
  if (status =? 200)%Z then
    let* html_content := lift text in
    let* extracted_text := lift (extract E html_content) in
    match truthy extracted_text with
    | Some t => ret (url_content url (slice_to 1000 t))
    | None => ret (url_error url "No main content extracted")
    end
  else ret (url_error url ("Failed to retrieve content: HTTP "
                            +:+ format_int status)).

(** Lines 70-75, the three [except] clauses in their order. *)
Definition fetch_handler (url : string) (e : exn) : M page_result :=
  match exn_class_of e with
  | TimeoutError => ret (url_error url "Request timed out")
  | ClientError => ret (url_error url ("Client error: " +:+ exn_str e))
  | OtherError => ret (url_error url ("Unexpected error: " +:+ exn_str e))
  end.

(** One iteration of the loop of line 57: the entry appended to
    [results]. *)
Definition fetch_one (url : string) : M page_result :=
  try_except (fetch_body url) (fetch_handler url).

(** The loop of lines 57-75, [results] being the list built so far. *)
Fixpoint fetch_loop (urls : list string) (results : list page_result)
  : M (list page_result) :=
  match urls with
  | [] => ret results
  | url :: rest =>
      let* entry := fetch_one url in
      fetch_loop rest (results ++ [entry])
  end.

Definition search_and_parse (query : pyval) : M (list page_result) :=
  let* r := search_request query in
  match r with
  | inl early => ret early
  | inr search_results =>
      let* urls := urls_of search_results in
      fetch_loop urls []
  end.

End Pipeline.

(** ** [run_conversation] and [generate_stream] *)

Definition system_message : message :=
  Message "system" None
    "You are an assistant that can search the web and provide information based on the search results. If there are errors in fetching or parsing web content, acknowledge them and try to provide the best response possible with the available information.ALways use the function if you do not know the answer. The function can be used multiple times until tou find the correct answer.".

Definition user_message (user_prompt : string) : message :=
  Message "user" None user_prompt.

(** The names of the functions declared in [tools]. *)
Definition tools : list string := ["search_and_parse"].

Definition searching_notice (query : pyval) : string :=
  nl +:+ "Searching the web for: " +:+ format_value query +:+ nl.

Definition final_notice : string :=
  nl +:+ "Final response incorporating search results:" +:+ nl.

Definition error_line (url err : string) : string :=
  "Error for " +:+ url +:+ ": " +:+ err +:+ nl.

Definition found_line (url : string) : string :=
  "Found relevant information from: " +:+ url +:+ nl.

Definition summary_line (text : string) : string :=
  "Summary: " +:+ slice_to 200 text +:+ "..." +:+ nl +:+ nl.

Section Conversation.
Variable E : env.

(** [await client.chat.completions.create(messages=messages, ...)], with
    [tools=tools] or without a [tools] argument. *)
Definition create (declared : option (list string)) : M stream :=
  let* msgs := gets messages in
  modify (add_event (EvCreate msgs declared)) >>
  lift (chat_completions_create E msgs declared).

(** Lines 143-147, the body of the loop over [search_results]. *)
Definition narrate (entry : page_result) : M unit :=
  match entry !! "error" with
  | Some err => yield (error_line (default "unknown URL" (entry !! "url")) err)
  | None =>
      let* url := getitem entry "url" in
      yield (found_line url) >>
      let* text := getitem entry "content" in
      yield (summary_line text)
  end.

(** Lines 165-166, the body of the loop over [final_stream]. *)
Definition forward_content (final_chunk : chunk) : M unit :=
  let* ch := index0 (choices final_chunk) in
  match delta_content (choice_delta ch) with
  | Some text => yield text
  | None => ret tt
  end.

(** [tool_call.function] followed by an attribute access. *)
Definition function_of (tc : tool_call) : M function_delta :=
  match tc_function tc with
  | Some fn => ret fn
  | None => raise (Exn OtherError "'NoneType' object has no attribute 'name'")
  end.

(** [function_args.get('query')] *)
Definition get_query (function_args : jvalue) : M pyval :=
  match function_args with
  | JDict query => ret query
  | JOther type_name =>
      raise (Exn OtherError ("'" +:+ type_name +:+ "' object has no attribute 'get'"))
  end.

(** [name == "search_and_parse"] *)
Definition names_search_and_parse (fn : function_delta) : bool :=
  match fn_name fn with
  | Some n => String.eqb n "search_and_parse"
  | None => false
  end.

(** Lines 137-166.  The source evaluates [function_args.get('query')] a
    second time at line 141; the value is the one of line 139. *)
Definition tool_branch (fn : function_delta) : M unit :=
  modify (set_search_performed true) >>
  let* function_args := lift (json_loads E (fn_arguments fn)) in
  let* query := get_query function_args in
  yield (searching_notice query) >>
  let* search_results := search_and_parse E query in
  for_each search_results narrate >>
  modify (append_message
            (Message "function" (Some "search_and_parse")
                     (json_dumps E search_results))) >>
  let* final_stream := create None in
  yield final_notice >>
  async_for final_stream forward_content.

(** Lines 132-166, the body of the loop over [stream]. *)
Definition handle_chunk (c : chunk) : M unit :=
  let* ch := index0 (choices c) in
  match delta_content (choice_delta ch) with
  | Some text => yield text
  | None =>
      match delta_tool_calls (choice_delta ch) with
      | None => ret tt
      | Some tcs =>
          let* performed := gets search_performed in
          if performed then ret tt
          else
            let* tc := index0 tcs in
            let* fn := function_of tc in
            if names_search_and_parse fn then tool_branch fn else ret tt
      end
  end.

Definition run_conversation (user_prompt : string) : M unit :=
  modify (set_messages [system_message; user_message user_prompt]) >>
  let* st := create (Some tools) in
  modify (set_search_performed false) >>
  async_for st handle_chunk.

Definition generate_stream (query : string) : M unit :=
  try_except (run_conversation query)
             (fun e => yield ("An error occurred: " +:+ exn_str e)).

End Conversation.

(** The state a request starts in, at time [t]. *)
Definition initial (t : nat) : state := State [] false t [].

(** ** Concrete collaborators for the examples *)

Module Sample.

Definition text_chunk (s : string) : chunk :=
  Chunk [Choice (Delta (Some s) None)].

Definition call_chunk (fname args : string) : chunk :=
  Chunk [Choice (Delta None (Some [ToolCall (Some (FunctionDelta (Some fname) (Some args)))]))].

Definition stop_chunk : chunk := Chunk [Choice (Delta None None)].

Definition page (html : string) : get_outcome := GetResponse 200 (Ok html).

(** A service whose first stream is [s1] and whose second stream is [s2];
    a search answering [found] after one unit of time; pages answering by
    [pages]; an extractor that keeps the page as it is; a decoder that reads
    the text of the arguments as a dictionary whose ['query'] is that
    text. *)
Definition service (s1 s2 : stream) (found : post_outcome)
    (pages : string -> get_outcome * nat) : env :=
  Env (fun _ declared => match declared with Some _ => Ok s1 | None => Ok s2 end)
      (fun a => match a with
                | Some q => Ok (JDict (PyStr q))
                | None => Raise (Exn OtherError "the JSON object must be str, bytes or bytearray, not NoneType")
                end)
      (fun rs => "results")
      (fun _ _ => (found, 1%nat))
      (fun _ url => pages url)
      (fun html => Ok (Some html)).

End Sample.

(** ** What a page fetch amounts to *)

(** The ways a page yields no content. *)
Inductive fetch_error : Type :=
| TimedOut
| HttpStatus (code : Z)
| Transport (msg : string)
| Unexpected (msg : string)
| ExtractionEmpty.

Inductive page_outcome : Type :=
| Content (text : string)
| Error (kind : fetch_error).

(** The message stored under ['error']. *)
Definition describe (k : fetch_error) : string :=
  match k with
  | TimedOut => "Request timed out"
  | HttpStatus code => "Failed to retrieve content: HTTP " +:+ format_int code
  | Transport msg => "Client error: " +:+ msg
  | Unexpected msg => "Unexpected error: " +:+ msg
  | ExtractionEmpty => "No main content extracted"
  end.

(** The constructor of a [fetch_error], without its arguments. *)
Definition kind_tag (k : fetch_error) : nat :=
  match k with
  | TimedOut => 0
  | HttpStatus _ => 1
  | Transport _ => 2
  | Unexpected _ => 3
  | ExtractionEmpty => 4
  end.

(** The dictionary of a page outcome. *)
Definition entry_of (url : string) (o : page_outcome) : page_result :=
  match o with
  | Content text => url_content url text
  | Error k => url_error url (describe k)
  end.

(** The clause of lines 70-75 that catches [e]. *)
Definition caught (e : exn) : fetch_error :=
  match exn_class_of e with
  | TimeoutError => TimedOut
  | ClientError => Transport (exn_str e)
  | OtherError => Unexpected (exn_str e)
  end.

(** The outcome of the page whose request was answered by [o]. *)
Definition classify (E : env) (o : get_outcome) : page_outcome :=
  match o with
  | GetRaised e => Error (caught e)
  | GetResponse status text =>
      if (status =? 200)%Z then
        match text with
        | Raise e => Error (caught e)
        | Ok html =>
            match extract E html with
            | Raise e => Error (caught e)
            | Ok t =>
                match truthy t with
                | Some t' => Content (slice_to 1000 t')
                | None => Error ExtractionEmpty
                end
            end
        end
      else Error (HttpStatus status)
  end.

(** The requests of a loop over [urls] that starts at time [t], each with
    the times it is issued and answered, when every request is issued once
    the one before has been answered. *)
Fixpoint schedule (E : env) (t : nat) (urls : list string)
  : list (string * (nat * nat)) :=
  match urls with
  | [] => []
  | url :: rest =>
      let d := snd (session_get E t url) in
      (url, (t, (t + d)%nat)) :: schedule E (t + d)%nat rest
  end.

Definition scheduled_event (r : string * (nat * nat)) : event :=
  EvGet (fst r) (fst (snd r)) (snd (snd r)).

Definition scheduled_entry (E : env) (r : string * (nat * nat)) : page_result :=
  entry_of (fst r) (classify E (fst (session_get E (fst (snd r)) (fst r)))).

(** The time at which the last request of a schedule is answered. *)
Fixpoint schedule_end (t : nat) (sch : list (string * (nat * nat))) : nat :=
  match sch with
  | [] => t
  | r :: rest => schedule_end (snd (snd r)) rest
  end.


(** ** What a search request amounts to *)

(** Lines 43-49 on the answer [o] of the search provider: the list
    returned at once, or the decoded body the code goes on with. *)
Definition search_reply (o : post_outcome) : list page_result + search_body :=
  match o with
  | PostRaised e =>
      inl [error_entry ("Error during search API request: " +:+ exn_str e)]
  | PostResponse status json =>
      if negb (status =? 200)%Z
      then inl [error_entry ("Serper API request failed with status code "
                             +:+ format_int status)]
      else match json with
           | Ok body => inr body
           | Raise e =>
               inl [error_entry ("Error during search API request: "
                                 +:+ exn_str e)]
           end
  end.

(** ** Reading chunks and logs *)

(** The text fragment a chunk carries in its first choice, if any. *)
Definition text_of (c : chunk) : list string :=
  match choices c with
  | ch :: _ =>
      match delta_content (choice_delta ch) with
      | Some text => [text]
      | None => []
      end
  | [] => []
  end.

Definition texts (cs : list chunk) : list string := concat (map text_of cs).

Definition has_choice (c : chunk) : bool :=
  match choices c with
  | [] => false
  | _ :: _ => true
  end.

(** A tool-invocation signal for the declared tool: a chunk without text
    whose first tool call names [search_and_parse]. *)
Definition signal (c : chunk) : option function_delta :=
  match choices c with
  | ch :: _ =>
      match delta_content (choice_delta ch), delta_tool_calls (choice_delta ch) with
      | None, Some (ToolCall (Some fn) :: _) =>
          if names_search_and_parse fn then Some fn else None
      | _, _ => None
      end
  | [] => None
  end.

(** A chunk that carries no tool call at all. *)
Definition plain (c : chunk) : bool :=
  match choices c with
  | ch :: _ =>
      match delta_tool_calls (choice_delta ch) with
      | None => true
      | Some _ => false
      end
  | [] => false
  end.

(** A chunk the loop of line 131 passes, before any search, with no other
    effect than forwarding its text: text, an empty delta, or a call of
    another function. *)
Definition passive (c : chunk) : bool :=
  match choices c with
  | ch :: _ =>
      match delta_content (choice_delta ch), delta_tool_calls (choice_delta ch) with
      | Some _, _ => true
      | None, None => true
      | None, Some (ToolCall (Some fn) :: _) => negb (names_search_and_parse fn)
      | None, Some _ => false
      end
  | [] => false
  end.

(** The fragments lines 143-147 emit for an entry of the pipeline. *)
Definition narration (entry : page_result) : list string :=
  match entry !! "error" with
  | Some err => [error_line (default "unknown URL" (entry !! "url")) err]
  | None =>
      match entry !! "url", entry !! "content" with
      | Some url, Some text => [found_line url; summary_line text]
      | Some url, None => [found_line url]
      | None, _ => []
      end
  end.

(** The message of lines 150-154. *)
Definition tool_message (E : env) (search_results : list page_result) : message :=
  Message "function" (Some "search_and_parse") (json_dumps E search_results).

Definition is_post (ev : event) : bool :=
  match ev with
  | EvPost _ _ _ => true
  | _ => false
  end.

Definition is_get (ev : event) : bool :=
  match ev with
  | EvGet _ _ _ => true
  | _ => false
  end.

(** The number of runs of the pipeline a log records: each run issues one
    search request, its first action. *)
Definition searches (l : list event) : nat := length (filter is_post l).

(** The time a request took. *)
Definition duration (ev : event) : nat :=
  match ev with
  | EvCreate _ _ => 0
  | EvPost _ t0 t1 => t1 - t0
  | EvGet _ t0 t1 => t1 - t0
  end.

(** [back_to_back t evs t']: the requests [evs] follow one another from
    time [t] to time [t'], each issued when the one before is answered. *)
Fixpoint back_to_back (t : nat) (evs : list event) (t' : nat) : Prop :=
  match evs with
  | [] => t = t'
  | EvCreate _ _ :: rest => back_to_back t rest t'
  | EvPost _ t0 t1 :: rest => t0 = t /\ t0 <= t1 /\ back_to_back t1 rest t'
  | EvGet _ t0 t1 :: rest => t0 = t /\ t0 <= t1 /\ back_to_back t1 rest t'
  end.

(** An entry the loop of lines 142-147 narrates without a [KeyError]: it
    has an ['error'], or a ['url'] and a ['content']. *)
Definition narratable (entry : page_result) : Prop :=
  is_Some (entry !! "error") \/
  (is_Some (entry !! "url") /\ is_Some (entry !! "content")).

Definition is_create (ev : event) : bool :=
  match ev with
  | EvCreate _ _ => true
  | _ => false
  end.

(** The completion requests a log records, oldest first. *)
Definition creates (l : list event) : list event := filter is_create l.

(** ** The shape of a conversation *)

(** Lines 87-96. *)
Definition opening (user_prompt : string) : list message :=
  [system_message; user_message user_prompt].

(** The request that opens the first stream, and the one that opens the
    second after the pipeline returned [rs]. *)
Definition first_open (user_prompt : string) : event :=
  EvCreate (opening user_prompt) (Some tools).

Definition second_open (E : env) (user_prompt : string) (rs : list page_result)
  : event :=
  EvCreate (opening user_prompt ++ [tool_message E rs]) None.

(** The states a conversation goes through: no tool call honoured yet; a
    tool call honoured and nothing appended; the tool result appended and
    the second stream requested. *)
Inductive shape (E : env) (user_prompt : string) (s : state) : Prop :=
| Untouched :
    search_performed s = false ->
    messages s = opening user_prompt ->
    creates (log s) = [first_open user_prompt] ->
    searches (log s) = 0 ->
    shape E user_prompt s
| Committed :
    search_performed s = true ->
    messages s = opening user_prompt ->
    creates (log s) = [first_open user_prompt] ->
    searches (log s) <= 1 ->
    shape E user_prompt s
| Reinjected (rs : list page_result) :
    search_performed s = true ->
    messages s = opening user_prompt ++ [tool_message E rs] ->
    creates (log s) = [first_open user_prompt; second_open E user_prompt rs] ->
    searches (log s) = 1 ->
    shape E user_prompt s.

(** The state in which the loop of line 131 starts, when the first stream
    opens. *)
Definition streaming (user_prompt : string) (s : state) : state :=
  State (opening user_prompt) false (now s)
        (log s ++ [first_open user_prompt]).

(** The state a conversation ends in when its tool branch ran through. *)
Definition reinjected (E : env) (user_prompt : string) (t : nat) (q : pyval)
    (rs : list page_result) : state :=
  add_event (second_open E user_prompt rs)
    (append_message (tool_message E rs)
       (final (search_and_parse E q
                 (set_search_performed true (streaming user_prompt (initial t)))))).

(** ** A concrete conversation *)

Module Scenario.
Import Sample.

Definition weather : string := "today's weather in Paris".

Definition stream1 : stream :=
  Stream [text_chunk "Let me check.";
          call_chunk "search_and_parse" weather;
          text_chunk " Done.";
          call_chunk "search_and_parse" "again"]
         None.

Definition stream2 : stream :=
  Stream [text_chunk "It is "; text_chunk "sunny."; stop_chunk] None.

Definition found : post_outcome :=
  PostResponse 200
    (Ok (BodyOrganic [Some "http://a.example"; None;
                      Some "http://b.example"; Some "http://c.example"])).

Definition pages (url : string) : get_outcome * nat :=
  if String.eqb url "http://a.example" then (page "Sunny, 21 degrees", 3)
  else if String.eqb url "http://b.example"
       then (GetRaised (Exn TimeoutError ""), 10)
       else (GetResponse 404 (Ok ""), 2).

Definition E : env := service stream1 stream2 found pages.

(** The same conversation when the search provider answers 500. *)
Definition E500 : env :=
  service stream1 stream2 (PostResponse 500 (Ok (BodyOrganic []))) pages.

(** A conversation without any tool call. *)
Definition Eplain : env :=
  service (Stream [text_chunk "Paris"; stop_chunk; text_chunk "."] None)
          stream2 found pages.

(** The same conversation when the search finds one page. *)
Definition Eone : env :=
  service stream1 stream2
          (PostResponse 200 (Ok (BodyOrganic [Some "http://a.example"]))) pages.

(** A string of [n] letters. *)
Fixpoint letters (n : nat) : string :=
  match n with
  | 0 => EmptyString
  | S n' => String "a" (letters n')
  end.

(** The search finds one page, of 1200 letters. *)
Definition Elong : env :=
  service stream1 stream2
          (PostResponse 200 (Ok (BodyOrganic [Some "http://long.example"])))
          (fun _ => (page (letters 1200), 3)).

(** The search finds [n] pages; each is fetched in one unit of time. *)
Definition Emany (n : nat) : env :=
  service stream1 stream2
          (PostResponse 200 (Ok (BodyOrganic (replicate n (Some "http://a.example")))))
          (fun _ => (page "Sunny, 21 degrees", 1)).

(** A model service that is down, and one whose first stream breaks after
    a fragment. *)
Definition Edown : env :=
  Env (fun _ _ => Raise (Exn OtherError "Connection error."))
      (json_loads E) (json_dumps E) (session_post E) (session_get E) (extract E).

Definition Ebroken : env :=
  service (Stream [text_chunk "Par"] (Some (Exn OtherError "peer closed connection")))
          stream2 found pages.

End Scenario.

(** ** The statements that fail on the code *)

(** "Exactly one narration fragment per PageResult": between the notice
    of the search and the notice of the final response, the honoured chunk
    emits as many fragments as the pipeline returned entries. *)
Definition one_fragment_per_result (E : env) (c : chunk) (s : state) : Prop :=
  exists q rs frags rest,
    result (search_and_parse E q (set_search_performed true s)) = Ok rs /\
    emitted (handle_chunk E c s)
    = searching_notice q :: frags ++ final_notice :: rest /\
    length frags = length rs.

(** The URL a page request asks for. *)
Definition requested (ev : event) : option string :=
  match ev with
  | EvGet url _ _ => Some url
  | _ => None
  end.

(** The time a run of the pipeline started at [t] takes, the time of its
    search request and the times of its page requests. *)
Definition pipeline_time (E : env) (q : pyval) (t : nat) : nat :=
  now (final (search_and_parse E q (initial t))) - t.

Definition search_time (E : env) (q : pyval) (t : nat) : nat :=
  sum_list (map duration (filter is_post (log (final (search_and_parse E q (initial t)))))).

Definition fetch_times (E : env) (q : pyval) (t : nat) : list nat :=
  map duration (filter is_get (log (final (search_and_parse E q (initial t))))).

(** "The pipeline completes in time bounded by the slowest single fetch
    plus fixed overhead": an overhead that fits every run. *)
Definition concurrent_bound : Prop :=
  exists overhead,
    forall E q t,
      pipeline_time E q t
      <= search_time E q t + max_list (fetch_times E q t) + overhead.

(** How the search provider failed, as the entry of lines 46 and 49 words
    it: a status other than 200, or an exception of the request. *)
Definition search_failure (o : post_outcome) : option string :=
  match o with
  | PostRaised e => Some ("Error during search API request: " +:+ exn_str e)
  | PostResponse status _ =>
      if (status =? 200)%Z then None
      else Some ("Serper API request failed with status code "
                 +:+ format_int status)
  end.

(** ** Conversations at the edges *)

Module Edge.
Import Sample.

(** A chunk without any choice. *)
Definition empty_chunk : chunk := Chunk [].

(** A chunk whose delta holds an empty list of tool calls. *)
Definition no_calls_chunk : chunk := Chunk [Choice (Delta None (Some []))].

(** A chunk that carries text and a call of [search_and_parse]. *)
Definition text_and_call_chunk : chunk :=
  Chunk [Choice (Delta (Some "Searching.")
                       (Some [ToolCall (Some (FunctionDelta (Some "search_and_parse")
                                                            (Some "x")))]))].

(** A call of a function that is not declared. *)
Definition other_call : chunk := call_chunk "lookup" "x".

(** A call of [search_and_parse] without arguments. *)
Definition no_args_call : chunk :=
  Chunk [Choice (Delta None
                       (Some [ToolCall (Some (FunctionDelta (Some "search_and_parse")
                                                            None))]))].

(** The search answers 200 with a body that is not JSON. *)
Definition Eundecodable : env :=
  service Scenario.stream1 Scenario.stream2
          (PostResponse 200 (Raise (Exn OtherError "Expecting value: line 1 column 1 (char 0)")))
          Scenario.pages.

(** The search answers 200 with a JSON list. *)
Definition Emalformed : env :=
  service Scenario.stream1 Scenario.stream2
          (PostResponse 200
             (Ok (BodyMalformed (Exn OtherError "'list' object has no attribute 'get'"))))
          Scenario.pages.

(** The search finds two results, neither with a link. *)
Definition Enolinks : env :=
  service Scenario.stream1 Scenario.stream2
          (PostResponse 200 (Ok (BodyOrganic [None; None]))) Scenario.pages.

(** The model service is down when the second stream is requested. *)
Definition Esecond_down : env :=
  Env (fun _ declared =>
         match declared with
         | Some _ => Ok Scenario.stream1
         | None => Raise (Exn OtherError "Connection error.")
         end)
      (json_loads Scenario.E) (json_dumps Scenario.E) (session_post Scenario.E)
      (session_get Scenario.E) (extract Scenario.E).

(** The second stream breaks after a fragment. *)
Definition Esecond_broken : env :=
  service Scenario.stream1
          (Stream [text_chunk "It is "] (Some (Exn OtherError "peer closed connection")))
          Scenario.found Scenario.pages.

(** A first stream of chunks that start no search. *)
Definition Epassive : env :=
  service (Stream [text_and_call_chunk; other_call; stop_chunk; text_chunk "."] None)
          Scenario.stream2 Scenario.found Scenario.pages.

(** A first stream with a chunk without choices. *)
Definition Eempty_choices : env :=
  service (Stream [text_chunk "Par"; empty_chunk; text_chunk "is"] None)
          Scenario.stream2 Scenario.found Scenario.pages.

(** The arguments of the call decode to a dictionary without ['query']. *)
Definition Enoquery : env :=
  Env (chat_completions_create Scenario.E)
      (fun _ => Ok (JDict PyNone))
      (json_dumps Scenario.E) (session_post Scenario.E)
      (session_get Scenario.E) (extract Scenario.E).

(** The second stream holds a chunk without choices between two
    fragments. *)
Definition Esecond_illformed : env :=
  service Scenario.stream1
          (Stream [text_chunk "It is "; empty_chunk; text_chunk "sunny."] None)
          Scenario.found Scenario.pages.

(** A first stream with a chunk without choices after its tool call. *)
Definition Eempty_after_call : env :=
  service (Stream [text_chunk "Let me check.";
                   call_chunk "search_and_parse" Scenario.weather;
                   empty_chunk;
                   text_chunk " Done."]
                  None)
          Scenario.stream2 Scenario.found Scenario.pages.

End Edge.

(** ** What the loop over the second stream forwards *)

(** The fragments lines 164-166 emit on the chunks [cs]: the text of each
    chunk in order, as far as the loop gets; it stops at a chunk without
    choices, where [choices[0]] raises. *)
Fixpoint forwarded (cs : list chunk) : list string :=
  match cs with
  | [] => []
  | c :: rest => if has_choice c then text_of c ++ forwarded rest else []
  end.
(** ** The monad's equations *)

#[local] Arguments bind : simpl never.
#[local] Arguments emit_before : simpl never.

Lemma run_eta {A} (r : run A) : Run (emitted r) (final r) (result r) = r.
Proof. by destruct r. Qed.

Lemma emit_before_nil {A} (r : run A) : emit_before [] r = r.
Proof. by destruct r. Qed.

Lemma emit_before_run {A} out out' s (o : outcome A) :
  emit_before out (Run out' s o) = Run (out ++ out') s o.
Proof. done. Qed.

Lemma emit_before_twice {A} out out' (r : run A) :
  emit_before out (emit_before out' r) = emit_before (out ++ out') r.
Proof. unfold emit_before. simpl. by rewrite app_assoc. Qed.

Lemma bind_ok {A B} (m : M A) (k : A -> M B) s out s' a :
  m s = Run out s' (Ok a) ->
  bind m k s = emit_before out (k a s').
Proof. intros H. unfold bind. by rewrite H. Qed.

Lemma bind_raise {A B} (m : M A) (k : A -> M B) s out s' e :
  m s = Run out s' (Raise e) ->
  bind m k s = Run out s' (Raise e).
Proof. intros H. unfold bind. by rewrite H. Qed.

Lemma bind_ok_nil {A B} (m : M A) (k : A -> M B) s s' a :
  m s = Run [] s' (Ok a) -> bind m k s = k a s'.
Proof. intros H. rewrite (bind_ok _ _ _ _ _ _ H). apply emit_before_nil. Qed.

Lemma bind_ext {A B} (m : M A) (k k' : A -> M B) s :
  (forall a s', k a s' = k' a s') -> bind m k s = bind m k' s.
Proof. intros H. unfold bind. destruct (result (m s)); [by rewrite H | done]. Qed.

Lemma bind_assoc {A B C} (m : M A) (k : A -> M B) (h : B -> M C) s :
  bind (bind m k) h s = bind m (fun a => bind (k a) h) s.
Proof.
  unfold bind. destruct (m s) as [out s' [a|e]]; simpl; [|done].
  destruct (k a s') as [out1 s1 [b|e1]]; simpl; [|done].
  by rewrite emit_before_twice.
Qed.

Lemma ret_bind {A B} (a : A) (k : A -> M B) s : bind (ret a) k s = k a s.
Proof. by apply bind_ok_nil. Qed.

Lemma modify_bind {B} f (k : unit -> M B) s : bind (modify f) k s = k tt (f s).
Proof. by apply bind_ok_nil. Qed.

Lemma gets_bind {A B} (f : state -> A) (k : A -> M B) s :
  bind (gets f) k s = k (f s) s.
Proof. by apply bind_ok_nil. Qed.

Lemma yield_bind {B} x (k : unit -> M B) s :
  bind (yield x) k s = emit_before [x] (k tt s).
Proof. by apply bind_ok. Qed.

Lemma raise_bind {A B} e (k : A -> M B) s :
  bind (raise e) k s = Run [] s (Raise e).
Proof. by apply bind_raise. Qed.

Lemma bind_final {A B} (m : M A) (k : A -> M B) s :
  final (bind m k s) =
  match result (m s) with
  | Ok a => final (k a (final (m s)))
  | Raise _ => final (m s)
  end.
Proof. unfold bind. by destruct (result (m s)). Qed.

Lemma for_each_app {A} (xs ys : list A) (body : A -> M unit) s :
  for_each (xs ++ ys) body s = (for_each xs body >> for_each ys body) s.
Proof.
  revert s. induction xs as [|x xs IH]; intros s; simpl.
  - by rewrite ret_bind.
  - rewrite bind_assoc. apply bind_ext. intros _ s'. apply IH.
Qed.

(** A loop whose body only emits: the fragments of the iterations, in
    order. *)
Lemma for_each_emits {A} (frags : A -> list string) (body : A -> M unit) xs s :
  Forall (fun x => body x s = Run (frags x) s (Ok tt)) xs ->
  for_each xs body s = Run (concat (map frags xs)) s (Ok tt).
Proof.
  induction 1 as [|x xs Hx _ IH]; simpl; [done|].
  unfold bind. rewrite Hx. simpl. by rewrite IH.
Qed.

(** A loop preserves what each iteration preserves. *)
Lemma for_each_preserves {A} (P : state -> Prop) (body : A -> M unit) xs :
  (forall x s, P s -> P (final (body x s))) ->
  forall s, P s -> P (final (for_each xs body s)).
Proof.
  intros Hbody. induction xs as [|x xs IH]; intros s Hs; simpl; [done|].
  unfold bind. specialize (Hbody x s Hs).
  destruct (body x s) as [out s' [[]|e]]; simpl in *; [by apply IH | done].
Qed.

(** ** The pipeline, step by step *)

Section PipelineFacts.
Variable E : env.

Lemma fetch_one_run url s :
  fetch_one E url s =
  Run [] (answered (EvGet url (now s) (now s + snd (session_get E (now s) url))%nat)
                   (now s + snd (session_get E (now s) url))%nat s)
      (Ok (entry_of url (classify E (fst (session_get E (now s) url))))).
Proof.
  unfold fetch_one, try_except, fetch_body, get_request, bind, gets.
  simpl. destruct (session_get E (now s) url) as [o d]. simpl.
  destruct o as [e|status text]; simpl.
  - unfold fetch_handler, caught. by destruct (exn_class_of e).
  - destruct (status =? 200)%Z; simpl; [|done].
    destruct text as [html|e]; simpl.
    + destruct (extract E html) as [t|e]; simpl.
      * by destruct (truthy t).
      * unfold fetch_handler, caught. by destruct (exn_class_of e).
    + unfold fetch_handler, caught. by destruct (exn_class_of e).
Qed.

Lemma fetch_loop_run urls : forall results s,
  fetch_loop E urls results s =
  Run []
      (State (messages s) (search_performed s)
             (schedule_end (now s) (schedule E (now s) urls))
             (log s ++ map scheduled_event (schedule E (now s) urls)))
      (Ok (results ++ map (scheduled_entry E) (schedule E (now s) urls))).
Proof.
  induction urls as [|url rest IH]; intros results s; simpl.
  - unfold ret. rewrite !app_nil_r. by destruct s.
  - rewrite (bind_ok_nil _ _ _ _ _ (fetch_one_run url s)).
    rewrite IH. simpl. rewrite <- !app_assoc. done.
Qed.

(** The state after the search request of a run started in [s]. *)
Lemma search_request_run q s :
  search_request E q s =
  Run [] (answered (EvPost q (now s) (now s + snd (session_post E (now s) q))%nat)
                   (now s + snd (session_post E (now s) q))%nat s)
      (Ok (search_reply (fst (session_post E (now s) q)))).
Proof.
  unfold search_request, try_except, post_request, bind, gets. simpl.
  destruct (session_post E (now s) q) as [o d]. simpl.
  destruct o as [e|status json]; simpl; [done|].
  destruct (status =? 200)%Z; simpl; [|done].
  by destruct json.
Qed.

Lemma search_and_parse_run q s :
  search_and_parse E q s =
  let d := snd (session_post E (now s) q) in
  let s' := answered (EvPost q (now s) (now s + d)%nat) (now s + d)%nat s in
  match search_reply (fst (session_post E (now s) q)) with
  | inl early => Run [] s' (Ok early)
  | inr (BodyMalformed e) => Run [] s' (Raise e)
  | inr (BodyOrganic organic) => fetch_loop E (omap id organic) [] s'
  end.
Proof.
  unfold search_and_parse.
  rewrite (bind_ok_nil _ _ _ _ _ (search_request_run q s)). simpl.
  destruct (search_reply _) as [early|[organic|e]]; [done| |done].
  simpl. by rewrite ret_bind.
Qed.

(** A run of the pipeline emits nothing, leaves the locals of the
    conversation alone, and logs one search request followed by page
    requests only. *)
Lemma search_and_parse_frame q s :
  emitted (search_and_parse E q s) = [] /\
  messages (final (search_and_parse E q s)) = messages s /\
  search_performed (final (search_and_parse E q s)) = search_performed s /\
  exists t1 gets,
    log (final (search_and_parse E q s)) = log s ++ EvPost q (now s) t1 :: gets /\
    Forall (fun ev => is_get ev = true) gets.
Proof.
  rewrite search_and_parse_run. simpl.
  destruct (search_reply _) as [early|[organic|e]]; simpl.
  - repeat split; try done. exists (now s + snd (session_post E (now s) q))%nat, [].
    by split.
  - rewrite fetch_loop_run. simpl. repeat split; try done.
    eexists _, _. rewrite <- app_assoc. split; [done|].
    apply Forall_map. by apply Forall_true.
  - repeat split; try done. exists (now s + snd (session_post E (now s) q))%nat, [].
    by split.
Qed.

End PipelineFacts.

(** ** The entries of the pipeline *)

Lemma error_entry_lookup msg :
  error_entry msg !! "error" = Some msg /\
  error_entry msg !! "url" = None /\
  error_entry msg !! "content" = None.
Proof. done. Qed.

Lemma url_error_lookup url msg :
  url_error url msg !! "error" = Some msg /\
  url_error url msg !! "url" = Some url /\
  url_error url msg !! "content" = None.
Proof. done. Qed.

Lemma url_content_lookup url text :
  url_content url text !! "error" = None /\
  url_content url text !! "url" = Some url /\
  url_content url text !! "content" = Some text.
Proof. done. Qed.

Lemma entry_of_narratable url o : narratable (entry_of url o).
Proof.
  destruct o as [text|k]; [right|left]; simpl.
  - by destruct (url_content_lookup url text) as (_ & -> & ->).
  - by destruct (url_error_lookup url (describe k)) as (-> & _).
Qed.

Lemma error_entry_narratable msg : narratable (error_entry msg).
Proof. by left. Qed.

Lemma search_and_parse_narratable E q s rs :
  result (search_and_parse E q s) = Ok rs -> Forall narratable rs.
Proof.
  rewrite search_and_parse_run. simpl.
  destruct (fst (session_post E (now s) q)) as [e|status json]; simpl.
  - intros [= <-]. apply Forall_singleton, error_entry_narratable.
  - destruct (status =? 200)%Z; simpl.
    + destruct json as [[organic|e]|e]; simpl.
      * rewrite fetch_loop_run. simpl. intros [= <-].
        apply Forall_map, Forall_true. intros r. apply entry_of_narratable.
      * done.
      * intros [= <-]. apply Forall_singleton, error_entry_narratable.
    + intros [= <-]. apply Forall_singleton, error_entry_narratable.
Qed.

(** ** The conversation, step by step *)

Section ConversationFacts.
Variable E : env.

Lemma forward_content_run c s :
  has_choice c = true -> forward_content c s = Run (text_of c) s (Ok tt).
Proof.
  unfold forward_content, has_choice, text_of.
  destruct (choices c) as [|ch rest]; [done|]. intros _. simpl.
  rewrite ret_bind. by destruct (delta_content (choice_delta ch)).
Qed.

(** Once a search has been performed the loop only forwards text. *)
Lemma handle_chunk_performed c s :
  search_performed s = true -> handle_chunk E c s = forward_content c s.
Proof.
  intros Hp. unfold handle_chunk, forward_content.
  destruct (choices c) as [|ch rest]; simpl; [done|].
  rewrite !ret_bind.
  destruct (delta_content (choice_delta ch)); [done|].
  destruct (delta_tool_calls (choice_delta ch)); [|done].
  unfold bind, gets. simpl. by rewrite Hp.
Qed.

Lemma handle_chunk_passive c s :
  search_performed s = false -> passive c = true ->
  handle_chunk E c s = Run (text_of c) s (Ok tt).
Proof.
  intros Hp. unfold handle_chunk, passive, text_of.
  destruct (choices c) as [|ch rest]; simpl; [done|].
  rewrite ret_bind.
  destruct (delta_content (choice_delta ch)); [done|].
  destruct (delta_tool_calls (choice_delta ch)) as [tcs|]; [|done].
  unfold bind at 1, gets. simpl. rewrite Hp. simpl.
  destruct tcs as [|[[fn|]] tcs]; [done| |done].
  intros Hn. rewrite emit_before_nil. simpl.
  rewrite ret_bind. unfold function_of. simpl.
  rewrite ret_bind. by destruct (names_search_and_parse fn).
Qed.

Lemma handle_chunk_signal c fn s :
  search_performed s = false -> signal c = Some fn ->
  handle_chunk E c s = tool_branch E fn s.
Proof.
  intros Hp. unfold handle_chunk, signal.
  destruct (choices c) as [|ch rest]; simpl; [done|].
  rewrite ret_bind.
  destruct (delta_content (choice_delta ch)); [done|].
  destruct (delta_tool_calls (choice_delta ch)) as [tcs|]; [|done].
  destruct tcs as [|[[fn'|]] tcs]; [done| |done].
  destruct (names_search_and_parse fn') eqn:Hn; [|done].
  intros [= <-].
  unfold bind at 1, gets. simpl. rewrite Hp. simpl.
  rewrite emit_before_nil. rewrite ret_bind. unfold function_of. simpl.
  rewrite ret_bind. by rewrite Hn.
Qed.

Lemma narrate_run entry s :
  narratable entry -> narrate entry s = Run (narration entry) s (Ok tt).
Proof.
  unfold narrate, narration, narratable, getitem.
  destruct (entry !! "error") as [err|]; [done|].
  intros [[? [=]]|[[url ->] [text ->]]].
  rewrite ret_bind. unfold bind at 1. simpl.
  by rewrite ret_bind.
Qed.

Lemma create_run declared s :
  create E declared s =
  Run [] (add_event (EvCreate (messages s) declared) s)
      (chat_completions_create E (messages s) declared).
Proof.
  unfold create. rewrite gets_bind, modify_bind. unfold lift.
  by destruct (chat_completions_create E (messages s) declared).
Qed.

(** The second stream is forwarded fragment by fragment. *)
Lemma async_for_forward st s :
  Forall (fun c => has_choice c = true) (stream_chunks st) ->
  async_for st forward_content s =
  Run (texts (stream_chunks st)) s
      (match stream_failure st with Some e => Raise e | None => Ok tt end).
Proof.
  intros Hst. unfold async_for.
  rewrite (bind_ok _ _ s (texts (stream_chunks st)) s tt).
  - destruct (stream_failure st); unfold emit_before, raise, ret; simpl;
      by rewrite app_nil_r.
  - apply for_each_emits. eapply Forall_impl; [exact Hst|].
    intros c Hc. by apply forward_content_run.
Qed.

(** The tool branch when the arguments decode to a dictionary, the pipeline
    returns and the second stream opens. *)
Lemma tool_branch_run fn s q rs st2 :
  json_loads E (fn_arguments fn) = Ok (JDict q) ->
  result (search_and_parse E q (set_search_performed true s)) = Ok rs ->
  chat_completions_create E (messages s ++ [tool_message E rs]) None = Ok st2 ->
  Forall (fun c => has_choice c = true) (stream_chunks st2) ->
  tool_branch E fn s =
  Run (searching_notice q :: concat (map narration rs)
         ++ final_notice :: texts (stream_chunks st2))
      (add_event (EvCreate (messages s ++ [tool_message E rs]) None)
         (append_message (tool_message E rs)
            (final (search_and_parse E q (set_search_performed true s)))))
      (match stream_failure st2 with Some e => Raise e | None => Ok tt end).
Proof.
  intros Hjson Hsearch Hcreate Hst2. unfold tool_branch.
  rewrite modify_bind, Hjson. simpl. rewrite ret_bind. simpl.
  rewrite ret_bind, yield_bind.
  destruct (search_and_parse_frame E q (set_search_performed true s))
    as (Hout & Hmsgs & _ & _).
  assert (Hrun : search_and_parse E q (set_search_performed true s) =
                 Run [] (final (search_and_parse E q (set_search_performed true s)))
                     (Ok rs))
    by (by rewrite <- Hout, <- Hsearch, run_eta).
  rewrite (bind_ok_nil _ _ _ _ _ Hrun).
  set (s2 := final (search_and_parse E q (set_search_performed true s))) in *.
  assert (Hnarr : for_each rs narrate s2 = Run (concat (map narration rs)) s2 (Ok tt)).
  { apply for_each_emits. eapply Forall_impl;
      [exact (search_and_parse_narratable _ _ _ _ Hsearch)|].
    intros entry. apply narrate_run. }
  rewrite (bind_ok _ _ _ _ _ _ Hnarr), modify_bind.
  assert (Hopen : create E None (append_message (tool_message E rs) s2) =
                  Run [] (add_event (EvCreate (messages s ++ [tool_message E rs]) None)
                            (append_message (tool_message E rs) s2))
                      (Ok st2)).
  { rewrite create_run. simpl. rewrite Hmsgs. simpl. by rewrite Hcreate. }
  rewrite (bind_ok_nil _ _ _ _ _ Hopen).
  rewrite yield_bind, async_for_forward by done.
  done.
Qed.

Lemma forward_content_final c s : final (forward_content c s) = s.
Proof.
  unfold forward_content. destruct (choices c) as [|ch rest]; simpl; [done|].
  by destruct (delta_content (choice_delta ch)).
Qed.

Lemma async_for_forward_final st s :
  final (async_for st forward_content s) = s.
Proof.
  unfold async_for. rewrite bind_final.
  assert (Hloop : final (for_each (stream_chunks st) forward_content s) = s).
  { apply (for_each_preserves (fun s' => s' = s)); [|done].
    intros c s' ->. apply forward_content_final. }
  destruct (result _); [|done].
  rewrite Hloop. by destruct (stream_failure st).
Qed.

Lemma narrate_final entry s : final (narrate entry s) = s.
Proof.
  unfold narrate, getitem. destruct (entry !! "error"); [done|].
  destruct (entry !! "url"); [|done]. simpl.
  by destruct (entry !! "content").
Qed.

(** Without a search performed, a chunk either leaves the state alone or is
    a signal and runs the tool branch. *)
Lemma handle_chunk_cases c s :
  search_performed s = false ->
  final (handle_chunk E c s) = s \/
  exists fn, signal c = Some fn /\ handle_chunk E c s = tool_branch E fn s.
Proof.
  intros Hp. destruct (signal c) as [fn|] eqn:Hsig.
  - right. exists fn. split; [done|]. by apply handle_chunk_signal.
  - left. revert Hsig. unfold handle_chunk, signal.
    destruct (choices c) as [|ch rest]; [done|].
    rewrite bind_final. simpl.
    destruct (delta_content (choice_delta ch)); [done|].
    destruct (delta_tool_calls (choice_delta ch)) as [tcs|]; [|done].
    rewrite gets_bind, Hp.
    destruct tcs as [|[[fn|]] tcs]; [done| |done].
    rewrite bind_final. simpl.
    by destruct (names_search_and_parse fn).
Qed.

Lemma creates_app l l' : creates (l ++ l') = creates l ++ creates l'.
Proof. apply filter_app. Qed.

Lemma searches_app l l' : searches (l ++ l') = searches l + searches l'.
Proof. unfold searches. by rewrite filter_app, length_app. Qed.

Lemma gets_no_create gets :
  Forall (fun ev => is_get ev = true) gets -> creates gets = [].
Proof.
  induction 1 as [|ev gets Hev _ IH]; [done|].
  by destruct ev.
Qed.

Lemma gets_no_search gets :
  Forall (fun ev => is_get ev = true) gets -> searches gets = 0.
Proof.
  induction 1 as [|ev gets Hev _ IH]; [done|].
  by destruct ev.
Qed.

(** The log after a run of the pipeline: no completion request more, one
    search more. *)
Lemma search_and_parse_log q s :
  creates (log (final (search_and_parse E q s))) = creates (log s) /\
  searches (log (final (search_and_parse E q s))) = S (searches (log s)).
Proof.
  destruct (search_and_parse_frame E q s) as (_ & _ & _ & t1 & gets & -> & Hgets).
  rewrite creates_app, searches_app.
  change (EvPost q (now s) t1 :: gets) with ([EvPost q (now s) t1] ++ gets).
  rewrite creates_app, searches_app.
  rewrite (gets_no_create _ Hgets), (gets_no_search _ Hgets).
  change (creates [EvPost q (now s) t1]) with (@nil event).
  change (searches [EvPost q (now s) t1]) with 1.
  rewrite !app_nil_r. split; [done|lia].
Qed.

Lemma tool_branch_shape user_prompt fn s :
  search_performed s = false ->
  messages s = opening user_prompt ->
  creates (log s) = [first_open user_prompt] ->
  searches (log s) = 0 ->
  shape E user_prompt (final (tool_branch E fn s)).
Proof.
  intros Hp Hm Hc Hs. unfold tool_branch. rewrite modify_bind.
  set (s1 := set_search_performed true s).
  assert (Hfail : shape E user_prompt s1).
  { apply Committed; simpl; try done. rewrite Hs. lia. }
  rewrite bind_final.
  destruct (json_loads E (fn_arguments fn)) as [[q|ty]|e]; simpl; try done.
  destruct (search_and_parse_frame E q s1) as (_ & Hm2 & Hp2 & _).
  destruct (search_and_parse_log q s1) as (Hc2 & Hs2).
  rewrite bind_final.
  set (s2 := final (search_and_parse E q s1)) in *.
  unfold s1 in Hm2, Hp2, Hc2, Hs2. simpl in Hm2, Hp2, Hc2, Hs2.
  rewrite Hm in Hm2. rewrite Hc in Hc2. rewrite Hs in Hs2.
  assert (Hstop : shape E user_prompt s2).
  { apply Committed; try done. rewrite Hs2. lia. }
  destruct (result (search_and_parse E q s1)) as [rs|e]; [|done].
  rewrite bind_final.
  assert (Hloop : final (for_each rs narrate s2) = s2).
  { apply (for_each_preserves (fun s' => s' = s2)); [|done].
    intros entry s' ->. apply narrate_final. }
  rewrite Hloop.
  destruct (result (for_each rs narrate s2)); [|done].
  rewrite modify_bind, bind_final, create_run. simpl.
  assert (Hlast :
    shape E user_prompt
      (add_event (EvCreate (messages s2 ++ [tool_message E rs]) None)
         (append_message (tool_message E rs) s2))).
  { apply (Reinjected _ _ _ rs); simpl.
    - done.
    - by rewrite Hm2.
    - rewrite creates_app, Hc2, Hm2. done.
    - rewrite searches_app, Hs2. done. }
  destruct (chat_completions_create E _ None) as [st2|e]; [|done].
  simpl. by rewrite async_for_forward_final.
Qed.

Lemma handle_chunk_shape user_prompt c s :
  shape E user_prompt s -> shape E user_prompt (final (handle_chunk E c s)).
Proof.
  intros Hs. 
  destruct (search_performed s) eqn:Hp.
  - by rewrite handle_chunk_performed, forward_content_final.
  - destruct (handle_chunk_cases c s Hp) as [->|(fn & _ & ->)]; [done|].
    destruct Hs as [_ Hm Hc Hn|Hp'|rs Hp']; [|congruence..].
    by apply tool_branch_shape.
Qed.

Lemma run_conversation_run user_prompt s :
  run_conversation E user_prompt s =
  match chat_completions_create E (opening user_prompt) (Some tools) with
  | Ok st => async_for st (handle_chunk E) (streaming user_prompt s)
  | Raise e =>
      Run [] (State (opening user_prompt) (search_performed s) (now s)
                    (log s ++ [first_open user_prompt]))
          (Raise e)
  end.
Proof.
  unfold run_conversation. rewrite modify_bind.
  unfold bind at 1. rewrite create_run. simpl.
  destruct (chat_completions_create E _ _) as [st|e]; [|done].
  rewrite emit_before_nil. by rewrite modify_bind.
Qed.

(** Every conversation ends in one of the three shapes. *)
Lemma run_conversation_shape user_prompt t :
  shape E user_prompt (final (run_conversation E user_prompt (initial t))).
Proof.
  rewrite run_conversation_run.
  destruct (chat_completions_create E _ _) as [st|e]; simpl.
  - unfold async_for. rewrite bind_final.
    assert (Hloop : shape E user_prompt
              (final (for_each (stream_chunks st) (handle_chunk E)
                               (streaming user_prompt (initial t))))).
    { apply for_each_preserves; [intros c s; apply handle_chunk_shape|].
      by apply Untouched. }
    destruct (result _); [|done]. by destruct (stream_failure st).
  - by apply Untouched.
Qed.

Lemma plain_passive c : plain c = true -> passive c = true.
Proof.
  unfold plain, passive. destruct (choices c) as [|ch rest]; [done|].
  destruct (delta_tool_calls (choice_delta ch)); [done|].
  by destruct (delta_content (choice_delta ch)).
Qed.

(** Before the signal: passive chunks are forwarded. *)
Lemma passive_prefix_run pre s :
  search_performed s = false ->
  Forall (fun c => passive c = true) pre ->
  for_each pre (handle_chunk E) s = Run (texts pre) s (Ok tt).
Proof.
  intros Hp Hpre. apply for_each_emits.
  eapply Forall_impl; [exact Hpre|]. intros c Hc. by apply handle_chunk_passive.
Qed.

(** After the search: every chunk is forwarded, whatever it carries. *)
Lemma forwarded_suffix_run post s :
  search_performed s = true ->
  Forall (fun c => has_choice c = true) post ->
  for_each post (handle_chunk E) s = Run (texts post) s (Ok tt).
Proof.
  intros Hp Hpost. apply for_each_emits.
  eapply Forall_impl; [exact Hpost|]. intros c Hc.
  rewrite handle_chunk_performed by done. by apply forward_content_run.
Qed.

(** A whole conversation whose first stream carries a signal after passive
    chunks, when the tool branch runs through. *)
Lemma run_with_signal user_prompt t pre c post failure fn q rs st2 :
  chat_completions_create E (opening user_prompt) (Some tools)
    = Ok (Stream (pre ++ c :: post) failure) ->
  Forall (fun c => passive c = true) pre ->
  signal c = Some fn ->
  json_loads E (fn_arguments fn) = Ok (JDict q) ->
  result (search_and_parse E q
            (set_search_performed true (streaming user_prompt (initial t))))
    = Ok rs ->
  chat_completions_create E (opening user_prompt ++ [tool_message E rs]) None
    = Ok st2 ->
  Forall (fun c => has_choice c = true) (stream_chunks st2) ->
  stream_failure st2 = None ->
  Forall (fun c => has_choice c = true) post ->
  run_conversation E user_prompt (initial t) =
  Run (texts pre ++ searching_notice q :: concat (map narration rs)
         ++ final_notice :: texts (stream_chunks st2) ++ texts post)
      (reinjected E user_prompt t q rs)
      (match failure with Some e => Raise e | None => Ok tt end).
Proof.
  intros Hopen Hpre Hsig Hjson Hsearch Hopen2 Hst2 Hend Hpost.
  rewrite run_conversation_run, Hopen. unfold async_for. simpl.
  set (s0 := streaming user_prompt (initial t)) in *.
  assert (Hbranch : handle_chunk E c s0 =
            Run (searching_notice q :: concat (map narration rs)
                   ++ final_notice :: texts (stream_chunks st2))
                (reinjected E user_prompt t q rs) (Ok tt)).
  { rewrite (handle_chunk_signal c fn) by done.
    rewrite (tool_branch_run fn s0 q rs st2) by done. by rewrite Hend. }
  assert (Hdone : search_performed (reinjected E user_prompt t q rs) = true).
  { unfold reinjected. simpl.
    by destruct (search_and_parse_frame E q
                   (set_search_performed true (streaming user_prompt (initial t))))
      as (_ & _ & -> & _). }
  assert (Hloop : for_each (pre ++ c :: post) (handle_chunk E) s0 =
            Run (texts pre ++ searching_notice q :: concat (map narration rs)
                   ++ final_notice :: texts (stream_chunks st2) ++ texts post)
                (reinjected E user_prompt t q rs) (Ok tt)).
  { rewrite for_each_app.
    rewrite (bind_ok _ _ _ _ _ _ (passive_prefix_run pre s0 eq_refl Hpre)).
    simpl. rewrite (bind_ok _ _ _ _ _ _ Hbranch).
    rewrite (forwarded_suffix_run post _ Hdone Hpost).
    unfold emit_before. simpl. f_equal. f_equal. f_equal.
    by rewrite <- app_assoc. }
  rewrite (bind_ok _ _ _ _ _ _ Hloop).
  unfold emit_before. destruct failure; simpl; by rewrite app_nil_r.
Qed.

(** The tool branch sets the flag and appends at most the tool result. *)
Lemma tool_branch_commits fn s :
  search_performed (final (tool_branch E fn s)) = true /\
  (messages (final (tool_branch E fn s)) = messages s \/
   exists rs, messages (final (tool_branch E fn s))
              = messages s ++ [tool_message E rs]).
Proof.
  unfold tool_branch. rewrite modify_bind, bind_final.
  destruct (json_loads E (fn_arguments fn)) as [[q|ty]|e]; simpl;
    [|by auto..].
  destruct (search_and_parse_frame E q (set_search_performed true s))
    as (_ & Hm2 & Hp2 & _).
  rewrite bind_final.
  set (s2 := final (search_and_parse E q (set_search_performed true s))) in *.
  simpl in Hm2, Hp2.
  destruct (result (search_and_parse E q _)) as [rs|e]; [|by auto].
  rewrite bind_final.
  assert (Hloop : final (for_each rs narrate s2) = s2).
  { apply (for_each_preserves (fun s' => s' = s2)); [|done].
    intros entry s' ->. apply narrate_final. }
  rewrite Hloop.
  destruct (result (for_each rs narrate s2)); [|by auto].
  rewrite modify_bind, bind_final, create_run. simpl.
  destruct (chat_completions_create E _ None) as [st2|e]; simpl.
  - rewrite async_for_forward_final. simpl. rewrite Hm2. eauto.
  - rewrite Hm2. eauto.
Qed.

Lemma generate_stream_run query s :
  generate_stream E query s =
  match result (run_conversation E query s) with
  | Ok _ => run_conversation E query s
  | Raise e =>
      Run (emitted (run_conversation E query s)
             ++ ["An error occurred: " +:+ exn_str e])
          (final (run_conversation E query s)) (Ok tt)
  end.
Proof.
  unfold generate_stream, try_except.
  by destruct (result (run_conversation E query s)).
Qed.

End ConversationFacts.

(** ** The claims *)

(** C1. Single-tool-use policy.  A tool-invocation signal is a chunk
    without text whose first tool call names [search_and_parse], the one
    declared tool ([signal]).  Whatever the model service streams, the
    pipeline is run at most once in a conversation (a run is counted by its
    search request).  While no search has been performed a signal is
    honoured: it runs the tool branch, which sets [search_performed].  Once
    a search has been performed, a chunk is only read for its text and
    leaves the state as it is: every later signal is ignored.  A chunk that
    is no signal starts no search and does not set [search_performed]. *)
Theorem single_tool_use (E : env) (user_prompt : string) (t : nat) :
  searches (log (final (run_conversation E user_prompt (initial t)))) <= 1 /\
  (forall c s fn,
      search_performed s = false -> signal c = Some fn ->
      handle_chunk E c s = tool_branch E fn s /\
      search_performed (final (handle_chunk E c s)) = true) /\
  (forall c s,
      search_performed s = true ->
      handle_chunk E c s = forward_content c s /\
      final (handle_chunk E c s) = s) /\
  (forall c s,
      signal c = None -> final (handle_chunk E c s) = s).
Proof.
  split; [|split; [|split]].
  - destruct (run_conversation_shape E user_prompt t) as [_ _ _ ->|_ _ _ H|rs _ _ _ ->]; lia.
  - intros c s fn Hp Hsig.
    rewrite (handle_chunk_signal E c fn s Hp Hsig). split; [done|].
    apply tool_branch_commits.
  - intros c s Hp. rewrite (handle_chunk_performed E c s Hp).
    split; [done|]. apply forward_content_final.
  - intros c s Hsig. destruct (search_performed s) eqn:Hp.
    + by rewrite handle_chunk_performed, forward_content_final.
    + destruct (handle_chunk_cases E c s Hp) as [->|(fn & Hfn & _)]; [done|].
      congruence.
Qed.

(** In the sample conversation the model asks for two searches: one search
    request is made, the first signal runs the tool branch, the second one
    emits nothing. *)
Lemma single_tool_use_witness :
  searches (log (final (run_conversation Scenario.E "q" (initial 0)))) <= 1 /\
  (handle_chunk Scenario.E (Sample.call_chunk "search_and_parse" Scenario.weather)
                (initial 0)
   = tool_branch Scenario.E
       (FunctionDelta (Some "search_and_parse") (Some Scenario.weather)) (initial 0) /\
   search_performed
     (final (handle_chunk Scenario.E
               (Sample.call_chunk "search_and_parse" Scenario.weather) (initial 0)))
   = true) /\
  (handle_chunk Scenario.E (Sample.call_chunk "search_and_parse" "again")
                (set_search_performed true (initial 0))
   = forward_content (Sample.call_chunk "search_and_parse" "again")
                     (set_search_performed true (initial 0)) /\
   final (handle_chunk Scenario.E (Sample.call_chunk "search_and_parse" "again")
                       (set_search_performed true (initial 0)))
   = set_search_performed true (initial 0)).
Proof.
  destruct (single_tool_use Scenario.E "q" 0) as (H1 & H2 & H3 & _).
  split; [exact H1|split].
  - apply H2; reflexivity.
  - apply H3; reflexivity.
Defined.


(** C8. Failure boundary.  [generate_stream] never raises.  It emits the
    fragments of [run_conversation]; when [run_conversation] raises [e] it
    emits one more fragment, ["An error occurred: "] followed by [str(e)],
    and ends. *)
Theorem failure_boundary (E : env) (query : string) (s : state) :
  generate_stream E query s =
  Run (emitted (run_conversation E query s)
         ++ match result (run_conversation E query s) with
            | Ok _ => []
            | Raise e => ["An error occurred: " +:+ exn_str e]
            end)
      (final (run_conversation E query s))
      (Ok tt).
Proof.
  rewrite generate_stream_run.
  destruct (run_conversation E query s) as [out s' [[]|e]]; simpl; [|done].
  by rewrite app_nil_r.
Qed.

(** The boundary at work: the model service is down; the first stream
    breaks after a fragment. *)
Example failure_boundary_down :
  generate_stream Scenario.Edown "q" (initial 0)
  = Run ["An error occurred: Connection error."]
        (State [system_message; user_message "q"] false 0
               [EvCreate [system_message; user_message "q"] (Some tools)])
        (Ok tt).
Proof. reflexivity. Qed.

Example failure_boundary_broken :
  emitted (generate_stream Scenario.Ebroken "q" (initial 0))
  = ["Par"; "An error occurred: peer closed connection"] /\
  result (run_conversation Scenario.Ebroken "q" (initial 0))
  = Raise (Exn OtherError "peer closed connection").
Proof. split; reflexivity. Qed.

(** C4. No-tool path.  When no chunk of the first stream carries a tool
    call, the fragments [run_conversation] emits are the text fragments of
    the first stream, in their order; the only call made to a collaborator is
    the request that opened the first stream, so the second stream is never
    opened; and what [generate_stream] emits differs only if the stream
    itself breaks. *)
Theorem no_tool_path (E : env) (user_prompt : string) (t : nat) (st : stream) :
  chat_completions_create E [system_message; user_message user_prompt] (Some tools)
    = Ok st ->
  Forall (fun c => plain c = true) (stream_chunks st) ->
  emitted (run_conversation E user_prompt (initial t)) = texts (stream_chunks st) /\
  log (final (run_conversation E user_prompt (initial t)))
    = [EvCreate [system_message; user_message user_prompt] (Some tools)] /\
  result (run_conversation E user_prompt (initial t))
    = match stream_failure st with Some e => Raise e | None => Ok tt end /\
  emitted (generate_stream E user_prompt (initial t))
    = texts (stream_chunks st)
      ++ match stream_failure st with
         | Some e => ["An error occurred: " +:+ exn_str e]
         | None => []
         end.
Proof.
  intros Hopen Hplain.
  assert (Hrun : run_conversation E user_prompt (initial t) =
            Run (texts (stream_chunks st)) (streaming user_prompt (initial t))
                (match stream_failure st with Some e => Raise e | None => Ok tt end)).
  { rewrite run_conversation_run. unfold opening. rewrite Hopen. unfold async_for.
    assert (Hloop : for_each (stream_chunks st) (handle_chunk E)
                      (streaming user_prompt (initial t))
                    = Run (texts (stream_chunks st))
                          (streaming user_prompt (initial t)) (Ok tt)).
    { apply passive_prefix_run; [done|].
      eapply Forall_impl; [exact Hplain|]. apply plain_passive. }
    rewrite (bind_ok _ _ _ _ _ _ Hloop).
    unfold emit_before. destruct (stream_failure st); simpl; by rewrite app_nil_r. }
  rewrite generate_stream_run, Hrun. simpl.
  repeat split; try done.
  destruct (stream_failure st); simpl; [done|by rewrite app_nil_r].
Qed.

Lemma no_tool_path_witness :
  emitted (run_conversation Scenario.Eplain "capital of France" (initial 0))
    = ["Paris"; "."] /\
  log (final (run_conversation Scenario.Eplain "capital of France" (initial 0)))
    = [EvCreate [system_message; user_message "capital of France"] (Some tools)] /\
  result (run_conversation Scenario.Eplain "capital of France" (initial 0)) = Ok tt /\
  emitted (generate_stream Scenario.Eplain "capital of France" (initial 0))
    = ["Paris"; "."] ++ [].
Proof.
  apply (no_tool_path Scenario.Eplain "capital of France" 0
           (Stream [Sample.text_chunk "Paris"; Sample.stop_chunk; Sample.text_chunk "."]
                   None)).
  - reflexivity.
  - repeat constructor.
Defined.

(** C10. After the honoured signal the loop over the first stream goes on
    once the second stream is exhausted: the text of the chunks that follow
    the signal in the first stream is emitted after all the text of the
    second stream, so the output need not end with the second stream's
    text. *)
Theorem stream1_resumes_after_stream2 (E : env) (user_prompt : string) (t : nat)
    (pre post : list chunk) (c : chunk) (failure : option exn)
    (fn : function_delta) (q : pyval) (rs : list page_result) (st2 : stream) :
  chat_completions_create E [system_message; user_message user_prompt] (Some tools)
    = Ok (Stream (pre ++ c :: post) failure) ->
  Forall (fun c => passive c = true) pre ->
  signal c = Some fn ->
  json_loads E (fn_arguments fn) = Ok (JDict q) ->
  result (search_and_parse E q
            (set_search_performed true (streaming user_prompt (initial t))))
    = Ok rs ->
  chat_completions_create E
    ([system_message; user_message user_prompt] ++ [tool_message E rs]) None
    = Ok st2 ->
  Forall (fun c => has_choice c = true) (stream_chunks st2) ->
  stream_failure st2 = None ->
  Forall (fun c => has_choice c = true) post ->
  emitted (run_conversation E user_prompt (initial t))
  = (texts pre
       ++ searching_notice q :: concat (map narration rs)
       ++ final_notice :: texts (stream_chunks st2))
    ++ texts post.
Proof.
  intros Hopen Hpre Hsig Hjson Hsearch Hopen2 Hst2 Hend Hpost.
  rewrite (run_with_signal E user_prompt t pre c post failure fn q rs st2)
    by done.
  simpl. rewrite <- !app_assoc. simpl. by rewrite <- !app_assoc.
Qed.

(** In the sample conversation the first stream says [" Done."] after its
    tool call: this is the last fragment of the output, after the two
    fragments of the second stream. *)
Lemma stream1_resumes_after_stream2_witness :
  emitted (run_conversation Scenario.E "q" (initial 0))
  = (["Let me check."]
       ++ searching_notice (PyStr Scenario.weather)
          :: [found_line "http://a.example"; summary_line "Sunny, 21 degrees";
              error_line "http://b.example" "Request timed out";
              error_line "http://c.example" "Failed to retrieve content: HTTP 404"]
       ++ final_notice :: ["It is "; "sunny."])
    ++ [" Done."].
Proof.
  apply (stream1_resumes_after_stream2 Scenario.E "q" 0
           [Sample.text_chunk "Let me check."]
           [Sample.text_chunk " Done."; Sample.call_chunk "search_and_parse" "again"]
           (Sample.call_chunk "search_and_parse" Scenario.weather)
           None
           (FunctionDelta (Some "search_and_parse") (Some Scenario.weather))
           (PyStr Scenario.weather)
           [url_content "http://a.example" "Sunny, 21 degrees";
            url_error "http://b.example" "Request timed out";
            url_error "http://c.example" "Failed to retrieve content: HTTP 404"]
           Scenario.stream2).
  - reflexivity.
  - repeat constructor.
  - reflexivity.
  - reflexivity.
  - vm_compute. reflexivity.
  - reflexivity.
  - repeat constructor.
  - reflexivity.
  - repeat constructor.
Defined.

(** What is narrated for an entry: one line for an error, two fragments for
    a page with content. *)
Lemma narration_cases entry :
  narratable entry ->
  (exists err,
      entry !! "error" = Some err /\
      narration entry = [error_line (default "unknown URL" (entry !! "url")) err]) \/
  (exists url text,
      entry !! "error" = None /\ entry !! "url" = Some url /\
      entry !! "content" = Some text /\
      narration entry = [found_line url; summary_line text]).
Proof.
  unfold narratable, narration.
  destruct (entry !! "error") as [err|].
  - intros _. left. by exists err.
  - intros [[? [=]]|[[url ->] [text ->]]]. right. by exists url, text.
Qed.

(** What the loop over the second stream emits, whatever its chunks. *)
Lemma for_each_forwarded cs s :
  emitted (for_each cs forward_content s) = forwarded cs.
Proof.
  induction cs as [|c cs IH]; [done|].
  change (for_each (c :: cs) forward_content s)
    with ((forward_content c >> for_each cs forward_content) s).
  change (forwarded (c :: cs))
    with (if has_choice c then text_of c ++ forwarded cs else []).
  destruct (has_choice c) eqn:Hc.
  - rewrite (bind_ok _ _ _ _ _ _ (forward_content_run c s Hc)).
    unfold emit_before. simpl. by rewrite IH.
  - assert (Hraise : forward_content c s
                     = Run [] s (Raise (Exn OtherError "list index out of range"))).
    { unfold forward_content. unfold has_choice in Hc.
      destruct (choices c); [|done]. simpl. by rewrite raise_bind. }
    by rewrite (bind_raise _ _ _ _ _ _ Hraise).
Qed.

Lemma async_for_forwarded st s :
  emitted (async_for st forward_content s) = forwarded (stream_chunks st).
Proof.
  unfold async_for, bind. rewrite <- (for_each_forwarded (stream_chunks st) s).
  destruct (for_each (stream_chunks st) forward_content s) as [out s' [[]|e]];
    simpl; [|done].
  unfold emit_before. destruct (stream_failure st); simpl; by rewrite app_nil_r.
Qed.

Lemma forwarded_texts cs :
  Forall (fun c => has_choice c = true) cs -> forwarded cs = texts cs.
Proof.
  induction 1 as [|c cs Hc _ IH]; [done|].
  simpl. rewrite Hc, IH. done.
Qed.

(** The tool branch up to the loop over the second stream. *)
Lemma tool_branch_opened E fn s q rs st2 :
  json_loads E (fn_arguments fn) = Ok (JDict q) ->
  result (search_and_parse E q (set_search_performed true s)) = Ok rs ->
  chat_completions_create E (messages s ++ [tool_message E rs]) None = Ok st2 ->
  tool_branch E fn s =
  emit_before (searching_notice q :: concat (map narration rs) ++ [final_notice])
    (async_for st2 forward_content
       (add_event (EvCreate (messages s ++ [tool_message E rs]) None)
          (append_message (tool_message E rs)
             (final (search_and_parse E q (set_search_performed true s)))))).
Proof.
  intros Hjson Hsearch Hcreate. unfold tool_branch.
  rewrite modify_bind, Hjson.
  change (lift (Ok (JDict q))) with (ret (JDict q)). rewrite ret_bind.
  change (get_query (JDict q)) with (ret q). rewrite ret_bind, yield_bind.
  destruct (search_and_parse_frame E q (set_search_performed true s))
    as (Hout & Hmsgs & _ & _).
  assert (Hrun : search_and_parse E q (set_search_performed true s) =
                 Run [] (final (search_and_parse E q (set_search_performed true s)))
                     (Ok rs))
    by (by rewrite <- Hout, <- Hsearch, run_eta).
  rewrite (bind_ok_nil _ _ _ _ _ Hrun).
  set (s2 := final (search_and_parse E q (set_search_performed true s))) in *.
  assert (Hnarr : for_each rs narrate s2 = Run (concat (map narration rs)) s2 (Ok tt)).
  { apply for_each_emits. eapply Forall_impl;
      [exact (search_and_parse_narratable _ _ _ _ Hsearch)|].
    intros entry. apply narrate_run. }
  rewrite (bind_ok _ _ _ _ _ _ Hnarr), modify_bind.
  assert (Hopen : create E None (append_message (tool_message E rs) s2) =
                  Run [] (add_event (EvCreate (messages s ++ [tool_message E rs]) None)
                            (append_message (tool_message E rs) s2))
                      (Ok st2)).
  { rewrite create_run. simpl. rewrite Hmsgs. simpl. by rewrite Hcreate. }
  rewrite (bind_ok_nil _ _ _ _ _ Hopen), yield_bind.
  rewrite !emit_before_twice. by rewrite <- app_assoc.
Qed.

(** C3, as the code has it.  When a signal is honoured with query [q], the
    pipeline returns [rs] and the second stream opens, the honoured chunk
    emits the notice of the search, then what the loop of lines 142-147
    emits for each entry of [rs] in order, then the notice of the final
    response, then the text fragments of the second stream in order, as far
    as the second stream is read: all of them when every chunk of the second
    stream has a choice, and those before the first chunk without choices
    otherwise, line 165 raising there.  For an entry with an error the loop
    emits one fragment, which names the entry's URL, or ["unknown URL"] when
    it has none; for an entry with content it emits two fragments, one
    naming the URL and one carrying the first 200 characters of the
    content. *)
Theorem tool_path_output (E : env) (c : chunk) (s : state)
    (fn : function_delta) (q : pyval) (rs : list page_result) (st2 : stream) :
  search_performed s = false ->
  signal c = Some fn ->
  json_loads E (fn_arguments fn) = Ok (JDict q) ->
  result (search_and_parse E q (set_search_performed true s)) = Ok rs ->
  chat_completions_create E (messages s ++ [tool_message E rs]) None = Ok st2 ->
  emitted (handle_chunk E c s)
  = (nl +:+ "Searching the web for: " +:+ format_value q +:+ nl)
    :: concat (map narration rs)
    ++ (nl +:+ "Final response incorporating search results:" +:+ nl)
    :: forwarded (stream_chunks st2) /\
  (Forall (fun c => has_choice c = true) (stream_chunks st2) ->
   forwarded (stream_chunks st2) = texts (stream_chunks st2)) /\
  Forall (fun entry =>
            (forall s', narrate entry s' = Run (narration entry) s' (Ok tt)) /\
            ((exists err,
                 entry !! "error" = Some err /\
                 narration entry
                 = ["Error for " +:+ default "unknown URL" (entry !! "url")
                    +:+ ": " +:+ err +:+ nl]) \/
             (exists url text,
                 entry !! "error" = None /\ entry !! "url" = Some url /\
                 entry !! "content" = Some text /\
                 narration entry
                 = ["Found relevant information from: " +:+ url +:+ nl;
                    "Summary: " +:+ slice_to 200 text +:+ "..." +:+ nl +:+ nl])))
         rs.
Proof.
  intros Hp Hsig Hjson Hsearch Hopen2. split; [|split].
  - rewrite (handle_chunk_signal E c fn s Hp Hsig).
    rewrite (tool_branch_opened E fn s q rs st2) by done.
    unfold emit_before at 1. simpl. rewrite async_for_forwarded.
    by rewrite <- app_assoc.
  - apply forwarded_texts.
  - eapply Forall_impl; [exact (search_and_parse_narratable _ _ _ _ Hsearch)|].
    intros entry Hentry. split.
    + intros s'. by apply narrate_run.
    + by apply narration_cases.
Qed.

Lemma tool_path_output_witness :
  emitted (handle_chunk Scenario.E
             (Sample.call_chunk "search_and_parse" Scenario.weather)
             (streaming "q" (initial 0)))
  = (nl +:+ "Searching the web for: " +:+ "today's weather in Paris" +:+ nl)
    :: concat (map narration
                 [url_content "http://a.example" "Sunny, 21 degrees";
                  url_error "http://b.example" "Request timed out";
                  url_error "http://c.example" "Failed to retrieve content: HTTP 404"])
    ++ (nl +:+ "Final response incorporating search results:" +:+ nl)
    :: forwarded (stream_chunks Scenario.stream2).
Proof.
  apply (tool_path_output Scenario.E
           (Sample.call_chunk "search_and_parse" Scenario.weather)
           (streaming "q" (initial 0))
           (FunctionDelta (Some "search_and_parse") (Some Scenario.weather))
           (PyStr Scenario.weather)
           [url_content "http://a.example" "Sunny, 21 degrees";
            url_error "http://b.example" "Request timed out";
            url_error "http://c.example" "Failed to retrieve content: HTTP 404"]
           Scenario.stream2).
  - reflexivity.
  - reflexivity.
  - reflexivity.
  - vm_compute. reflexivity.
  - reflexivity.
Defined.

(** The sample conversation, and the one whose second stream holds a chunk
    without choices after its first fragment. *)
Example tool_path_output_sample :
  emitted (handle_chunk Scenario.E
             (Sample.call_chunk "search_and_parse" Scenario.weather)
             (streaming "q" (initial 0)))
  = [searching_notice (PyStr Scenario.weather);
     found_line "http://a.example"; summary_line "Sunny, 21 degrees";
     error_line "http://b.example" "Request timed out";
     error_line "http://c.example" "Failed to retrieve content: HTTP 404";
     final_notice; "It is "; "sunny."] /\
  emitted (handle_chunk Edge.Esecond_illformed
             (Sample.call_chunk "search_and_parse" Scenario.weather)
             (streaming "q" (initial 0)))
  = [searching_notice (PyStr Scenario.weather);
     found_line "http://a.example"; summary_line "Sunny, 21 degrees";
     error_line "http://b.example" "Request timed out";
     error_line "http://c.example" "Failed to retrieve content: HTTP 404";
     final_notice; "It is "].
Proof. split; vm_compute; reflexivity. Qed.

(** C3 as stated fails: the search finds one page, the page has content,
    and two fragments stand between the two notices. *)
Lemma one_fragment_per_result_fails :
  ~ one_fragment_per_result Scenario.Eone
      (Sample.call_chunk "search_and_parse" Scenario.weather)
      (streaming "q" (initial 0)).
Proof.
  intros (q & rs & frags & rest & Hrs & Hout & Hlen).
  assert (Hres : result (search_and_parse Scenario.Eone q
                           (set_search_performed true (streaming "q" (initial 0))))
                 = Ok [url_content "http://a.example" "Sunny, 21 degrees"])
    by (vm_compute; reflexivity).
  rewrite Hres in Hrs. injection Hrs as <-.
  assert (Hemit : emitted (handle_chunk Scenario.Eone
                             (Sample.call_chunk "search_and_parse" Scenario.weather)
                             (streaming "q" (initial 0)))
                  = [searching_notice (PyStr Scenario.weather);
                     found_line "http://a.example";
                     summary_line "Sunny, 21 degrees";
                     final_notice; "It is "; "sunny."])
    by (vm_compute; reflexivity).
  rewrite Hemit in Hout.
  destruct frags as [|f [|f' frags]]; simpl in Hlen; try discriminate Hlen.
  simpl in Hout. injection Hout as _ _ Hbad _.
  vm_compute in Hbad. discriminate Hbad.
Qed.

(** A failed search request ends the pipeline with its one entry. *)
Lemma search_failure_run E q s msg :
  search_failure (fst (session_post E (now s) q)) = Some msg ->
  search_and_parse E q s =
  Run [] (answered (EvPost q (now s) (now s + snd (session_post E (now s) q))%nat)
                   (now s + snd (session_post E (now s) q))%nat s)
      (Ok [error_entry msg]).
Proof.
  intros Hfail. rewrite search_and_parse_run. simpl.
  destruct (fst (session_post E (now s) q)) as [e|status json]; simpl in *.
  - by injection Hfail as <-.
  - destruct (status =? 200)%Z; [done|]. by injection Hfail as <-.
Qed.

(** C6. Search-provider failure.  When the search request raises or is
    answered with a status other than 200, [search_and_parse] returns a list
    of one entry, which holds the error, and does not raise.  The
    conversation that asked for the search goes on: the failure is narrated,
    the tool-result message with this one entry is appended, the second
    stream is requested over the three messages and forwarded, the rest of
    the first stream is read, and [run_conversation] ends without raising. *)
Theorem search_provider_failure (E : env) (user_prompt : string) (t : nat)
    (pre post : list chunk) (c : chunk) (fn : function_delta) (q : pyval)
    (msg : string) (st2 : stream) :
  chat_completions_create E [system_message; user_message user_prompt] (Some tools)
    = Ok (Stream (pre ++ c :: post) None) ->
  Forall (fun c => passive c = true) pre ->
  signal c = Some fn ->
  json_loads E (fn_arguments fn) = Ok (JDict q) ->
  search_failure (fst (session_post E t q)) = Some msg ->
  chat_completions_create E
    ([system_message; user_message user_prompt]
       ++ [tool_message E [error_entry msg]]) None
    = Ok st2 ->
  Forall (fun c => has_choice c = true) (stream_chunks st2) ->
  stream_failure st2 = None ->
  Forall (fun c => has_choice c = true) post ->
  (forall s, now s = t ->
             emitted (search_and_parse E q s) = [] /\
             result (search_and_parse E q s) = Ok [error_entry msg]) /\
  result (run_conversation E user_prompt (initial t)) = Ok tt /\
  emitted (run_conversation E user_prompt (initial t))
  = texts pre
    ++ searching_notice q :: error_line "unknown URL" msg
    :: final_notice :: texts (stream_chunks st2) ++ texts post /\
  messages (final (run_conversation E user_prompt (initial t)))
  = [system_message; user_message user_prompt; tool_message E [error_entry msg]] /\
  creates (log (final (run_conversation E user_prompt (initial t))))
  = [EvCreate [system_message; user_message user_prompt] (Some tools);
     EvCreate [system_message; user_message user_prompt;
               tool_message E [error_entry msg]] None].
Proof.
  intros Hopen Hpre Hsig Hjson Hfail Hopen2 Hst2 Hend Hpost.
  assert (Hsearch : forall s, now s = t ->
            search_and_parse E q s =
            Run [] (answered (EvPost q t (t + snd (session_post E t q))%nat)
                             (t + snd (session_post E t q))%nat s)
                (Ok [error_entry msg])).
  { intros s <-. by apply search_failure_run. }
  split; [intros s Hs; by rewrite (Hsearch s Hs)|].
  assert (Hs1 : now (set_search_performed true (streaming user_prompt (initial t)))
                = t) by done.
  rewrite (run_with_signal E user_prompt t pre c post None fn q
             [error_entry msg] st2); try done.
  - unfold reinjected. rewrite (Hsearch _ Hs1). simpl. repeat split; done.
  - by rewrite (Hsearch _ Hs1).
Qed.

(** The search provider answers 500 in the sample conversation. *)
Lemma search_provider_failure_witness :
  (forall s, now s = 0 ->
             emitted (search_and_parse Scenario.E500 (PyStr Scenario.weather) s) = [] /\
             result (search_and_parse Scenario.E500 (PyStr Scenario.weather) s)
             = Ok [error_entry "Serper API request failed with status code 500"]) /\
  result (run_conversation Scenario.E500 "q" (initial 0)) = Ok tt /\
  emitted (run_conversation Scenario.E500 "q" (initial 0))
  = texts [Sample.text_chunk "Let me check."]
    ++ searching_notice (PyStr Scenario.weather)
    :: error_line "unknown URL" "Serper API request failed with status code 500"
    :: final_notice :: texts (stream_chunks Scenario.stream2)
    ++ texts [Sample.text_chunk " Done."; Sample.call_chunk "search_and_parse" "again"] /\
  messages (final (run_conversation Scenario.E500 "q" (initial 0)))
  = [system_message; user_message "q";
     tool_message Scenario.E500
       [error_entry "Serper API request failed with status code 500"]] /\
  creates (log (final (run_conversation Scenario.E500 "q" (initial 0))))
  = [EvCreate [system_message; user_message "q"] (Some tools);
     EvCreate [system_message; user_message "q";
               tool_message Scenario.E500
                 [error_entry "Serper API request failed with status code 500"]]
              None].
Proof.
  apply (search_provider_failure Scenario.E500 "q" 0
           [Sample.text_chunk "Let me check."]
           [Sample.text_chunk " Done."; Sample.call_chunk "search_and_parse" "again"]
           (Sample.call_chunk "search_and_parse" Scenario.weather)
           (FunctionDelta (Some "search_and_parse") (Some Scenario.weather))
           (PyStr Scenario.weather)
           "Serper API request failed with status code 500"
           Scenario.stream2).
  - reflexivity.
  - repeat constructor.
  - reflexivity.
  - reflexivity.
  - reflexivity.
  - reflexivity.
  - repeat constructor.
  - reflexivity.
  - repeat constructor.
Defined.

(** ** Slices *)

Lemma slice_to_length n s :
  String.length (slice_to n s) = min n (String.length s).
Proof.
  revert s. induction n as [|n IH]; intros [|a s]; simpl; try done.
  by rewrite IH.
Qed.

Lemma slice_to_short n s : String.length s <= n -> slice_to n s = s.
Proof.
  revert s. induction n as [|n IH]; intros [|a s]; simpl; try done; [lia|].
  intros Hle. rewrite IH; [done|lia].
Qed.

Lemma slice_to_prefix n s : exists rest, s = slice_to n s +:+ rest.
Proof.
  revert s. induction n as [|n IH]; intros s.
  - exists s. by destruct s.
  - destruct s as [|a s]; [by exists ""|].
    destruct (IH s) as [rest Hrest]. exists rest.
    change (String a s = String a (slice_to n s +:+ rest)). by f_equal.
Qed.

Lemma slice_to_prefix_bool n s : String.prefix (slice_to n s) s = true.
Proof.
  revert s. induction n as [|n IH]; intros [|a s]; simpl; try done.
  destruct (ascii_dec a a); [apply IH|done].
Qed.

(** ** Schedules *)

Section ScheduleFacts.
Variable E : env.

Lemma schedule_length urls t : length (schedule E t urls) = length urls.
Proof. revert t. induction urls as [|u urls IH]; intros t; simpl; [done|]. by rewrite IH. Qed.

Lemma schedule_lookup urls : forall t i url,
  urls !! i = Some url ->
  exists t0, schedule E t urls !! i
             = Some (url, (t0, (t0 + snd (session_get E t0 url))%nat)).
Proof.
  induction urls as [|u urls IH]; intros t i url Hi; [done|].
  destruct i as [|i]; simpl in *.
  - injection Hi as ->. by exists t.
  - by apply IH.
Qed.

Lemma schedule_requested urls t :
  omap requested (map scheduled_event (schedule E t urls)) = urls.
Proof. revert t. induction urls as [|u urls IH]; intros t; simpl; [done|]. by rewrite IH. Qed.

Lemma schedule_back_to_back urls t :
  back_to_back t (map scheduled_event (schedule E t urls))
               (schedule_end t (schedule E t urls)).
Proof.
  revert t. induction urls as [|u urls IH]; intros t; simpl; [done|].
  repeat split; [lia|apply IH].
Qed.

Lemma schedule_end_sum urls t :
  schedule_end t (schedule E t urls)
  = t + sum_list (map duration (map scheduled_event (schedule E t urls))).
Proof.
  revert t. induction urls as [|u urls IH]; intros t; simpl; [lia|].
  rewrite IH. lia.
Qed.

Lemma schedule_get_events urls t :
  filter is_get (map scheduled_event (schedule E t urls))
  = map scheduled_event (schedule E t urls) /\
  filter is_post (map scheduled_event (schedule E t urls)) = [].
Proof.
  revert t. induction urls as [|u urls IH]; intros t; simpl; [done|].
  destruct (IH (t + snd (session_get E t u))) as [Hg Hp].
  rewrite filter_cons_True by done. rewrite filter_cons_False by (by intros ?).
  by rewrite Hg, Hp.
Qed.

Lemma schedule_durations_const d urls t :
  (forall t' u, snd (session_get E t' u) = d) ->
  map duration (map scheduled_event (schedule E t urls))
  = replicate (length urls) d.
Proof.
  intros Hd. revert t. induction urls as [|u urls IH]; intros t; simpl; [done|].
  rewrite IH, Hd. f_equal. lia.
Qed.

End ScheduleFacts.

(** ** Entries and outcomes *)

Lemma lookup_map {A B} (f : A -> B) (l : list A) i :
  map f l !! i = f <$> (l !! i).
Proof. revert i. induction l as [|x l IH]; intros [|i]; simpl; try done. Qed.

Lemma entry_of_lookup url o :
  entry_of url o !! "url" = Some url /\
  match o with
  | Content text =>
      entry_of url o !! "content" = Some text /\ entry_of url o !! "error" = None
  | Error k =>
      entry_of url o !! "content" = None /\
      entry_of url o !! "error" = Some (describe k)
  end.
Proof. by destruct o. Qed.

Lemma describe_distinct k k' : kind_tag k <> kind_tag k' -> describe k <> describe k'.
Proof.
  intros Htag Heq. destruct k, k'; try (by destruct Htag);
    vm_compute in Heq; discriminate Heq.
Qed.

Lemma classify_content E o text :
  classify E o = Content text ->
  exists html extracted,
    extract E html = Ok (Some extracted) /\ text = slice_to 1000 extracted.
Proof.
  destruct o as [e|status [html|e]]; simpl; [done| |by destruct (status =? 200)%Z].
  destruct (status =? 200)%Z; [|done].
  destruct (extract E html) as [[[|a extracted]|]|e] eqn:Hex; simpl; try done.
  intros [= <-]. by exists html, (String a extracted).
Qed.

(** The entries the pipeline returns: the entry of a failed search, or the
    entries of fetched pages. *)
Lemma search_and_parse_entries E q s entries entry :
  result (search_and_parse E q s) = Ok entries ->
  entry ∈ entries ->
  (exists msg, entry = error_entry msg) \/
  (exists url t0, entry = entry_of url (classify E (fst (session_get E t0 url)))).
Proof.
  rewrite search_and_parse_run. simpl.
  destruct (search_reply _) as [early|[organic|e]] eqn:Hreply; simpl.
  - intros [= <-] Hin. left. revert Hreply Hin. unfold search_reply.
    destruct (fst (session_post E (now s) q)) as [e|status [body|e]];
      [|destruct (negb (status =? 200)%Z)..]; intros [= <-]; 
      rewrite list_elem_of_singleton; intros ->; eauto.
  - rewrite fetch_loop_run. simpl. intros [= <-] Hin. right.
    apply list_elem_of_In, in_map_iff in Hin as ([url [t0 t1]] & <- & _).
    by exists url, t0.
  - done.
Qed.

(** C5. Per-URL containment.  When the search request is answered with the
    URLs [urls], the pipeline returns, whatever happens to the pages, a list
    with one entry for each URL, in the order of [urls].  The entry of a URL
    holds the URL and the outcome of its own request: either the content, or
    one error, worded after its kind.  A time-out, a status other than 200,
    a client error, another exception and an empty extraction are five kinds,
    and errors of two kinds never have the same wording. *)
Theorem per_url_containment (E : env) (q : pyval) (s : state)
    (organic : list (option string)) :
  fst (session_post E (now s) q) = PostResponse 200 (Ok (BodyOrganic organic)) ->
  exists entries,
    result (search_and_parse E q s) = Ok entries /\
    length entries = length (omap id organic) /\
    (forall i url,
        omap id organic !! i = Some url ->
        exists t0,
          entries !! i
          = Some (entry_of url (classify E (fst (session_get E t0 url))))) /\
    (forall url o,
        entry_of url o !! "url" = Some url /\
        match o with
        | Content text =>
            entry_of url o !! "content" = Some text /\
            entry_of url o !! "error" = None
        | Error k =>
            entry_of url o !! "content" = None /\
            entry_of url o !! "error" = Some (describe k)
        end) /\
    (forall e, classify E (GetRaised e)
               = Error match exn_class_of e with
                       | TimeoutError => TimedOut
                       | ClientError => Transport (exn_str e)
                       | OtherError => Unexpected (exn_str e)
                       end) /\
    (forall status text,
        status <> 200%Z ->
        classify E (GetResponse status text) = Error (HttpStatus status)) /\
    (forall html,
        extract E html = Ok None \/ extract E html = Ok (Some "") ->
        classify E (GetResponse 200 (Ok html)) = Error ExtractionEmpty) /\
    (forall k k', kind_tag k <> kind_tag k' -> describe k <> describe k').
Proof.
  intros Hpost.
  exists (map (scheduled_entry E)
              (schedule E (now s + snd (session_post E (now s) q))%nat
                        (omap id organic))).
  split; [|split; [|split; [|split; [|split; [|split; [|split]]]]]].
  - rewrite search_and_parse_run, Hpost. simpl. by rewrite fetch_loop_run.
  - by rewrite length_map, schedule_length.
  - intros i url Hi.
    destruct (schedule_lookup E _ (now s + snd (session_post E (now s) q))%nat
                              i url Hi) as [t0 Ht0].
    exists t0. by rewrite lookup_map, Ht0.
  - apply entry_of_lookup.
  - done.
  - intros status text Hstatus. simpl.
    by destruct (Z.eqb_spec status 200).
  - intros html [Hex|Hex]; simpl; by rewrite Hex.
  - apply describe_distinct.
Qed.

(** Three pages in the sample conversation: content, a time-out, a 404. *)
Lemma per_url_containment_witness :
  exists entries,
    result (search_and_parse Scenario.E (PyStr Scenario.weather) (initial 0))
    = Ok entries /\
    length entries = 3 /\
    entries !! 0 = Some (url_content "http://a.example" "Sunny, 21 degrees") /\
    entries !! 1 = Some (url_error "http://b.example" "Request timed out") /\
    entries !! 2
    = Some (url_error "http://c.example" "Failed to retrieve content: HTTP 404").
Proof.
  destruct (per_url_containment Scenario.E (PyStr Scenario.weather) (initial 0)
              [Some "http://a.example"; None;
               Some "http://b.example"; Some "http://c.example"] eq_refl)
    as (entries & Hres & Hlen & Hentries & _).
  exists entries. split; [exact Hres|]. split; [exact Hlen|].
  destruct (Hentries 0 "http://a.example" eq_refl) as [t0 ->].
  destruct (Hentries 1 "http://b.example" eq_refl) as [t1 ->].
  destruct (Hentries 2 "http://c.example" eq_refl) as [t2 ->].
  repeat split.
Defined.

(** The narration of an entry with content, as the loop of lines 142-147
    runs it. *)
Lemma narrate_content url text s :
  narrate (url_content url text) s
  = Run [found_line url; summary_line text] s (Ok tt).
Proof.
  rewrite narrate_run by (apply (entry_of_narratable url (Content text))).
  destruct (url_content_lookup url text) as (He & Hu & Hc).
  unfold narration. by rewrite He, Hu, Hc.
Qed.

Lemma classify_extracted E status html t :
  status = 200%Z -> extract E html = Ok (Some t) -> t <> "" ->
  classify E (GetResponse status (Ok html)) = Content (slice_to 1000 t).
Proof.
  intros -> Hex Ht. unfold classify.
  change (200 =? 200)%Z with true. cbv iota. rewrite Hex.
  destruct t as [|a t]; [done|]. done.
Qed.

(** C7. Truncation.  For every text [t], not empty, that [extract] returns
    for the page of a URL the pipeline requests, the entry of this URL stores
    under ['content'] the first 1000 characters of [t]: [t] itself when it
    has at most 1000 characters, exactly 1000 characters when it has more.
    Every content stored in an entry of the pipeline arises in this way, and
    for every such entry the loop of lines 142-147 emits, after the line
    naming the URL, the summary fragment, whose preview is the first 200
    characters of the stored content: a prefix of it, of 200 characters or
    of the whole content if that is shorter. *)
Theorem truncation (E : env) (q : pyval) (s : state) :
  (forall ev gets i url t0 t1 html t,
      log (final (search_and_parse E q s)) = log s ++ ev :: gets ->
      gets !! i = Some (EvGet url t0 t1) ->
      fst (session_get E t0 url) = GetResponse 200 (Ok html) ->
      extract E html = Ok (Some t) ->
      t <> "" ->
      exists entries entry,
        result (search_and_parse E q s) = Ok entries /\
        entries !! i = Some entry /\
        entry !! "url" = Some url /\
        entry !! "content" = Some (slice_to 1000 t) /\
        (String.length t <= 1000 -> entry !! "content" = Some t) /\
        (1000 < String.length t ->
         exists text, entry !! "content" = Some text /\ String.length text = 1000)) /\
  (forall entries entry text,
      result (search_and_parse E q s) = Ok entries ->
      entry ∈ entries ->
      entry !! "content" = Some text ->
      (exists html t, extract E html = Ok (Some t) /\ text = slice_to 1000 t) /\
      exists url preview,
        entry !! "url" = Some url /\
        (forall s',
            narrate entry s'
            = Run ["Found relevant information from: " +:+ url +:+ nl;
                   "Summary: " +:+ preview +:+ "..." +:+ nl +:+ nl]
                  s' (Ok tt)) /\
        preview = slice_to 200 text /\
        String.prefix preview text = true /\
        (exists rest, text = preview +:+ rest) /\
        String.length preview = min 200 (String.length text)).
Proof.
  split.
  - intros ev gets i url t0 t1 html t Hlog Hi Hget Hex Ht.
    revert Hlog. rewrite search_and_parse_run. simpl.
    destruct (search_reply _) as [early|[organic|e]]; simpl.
    + intros Hlog. apply app_inv_head in Hlog. injection Hlog as _ <-. done.
    + rewrite fetch_loop_run. simpl. rewrite <- app_assoc. simpl.
      intros Hlog. apply app_inv_head in Hlog. injection Hlog as _ <-.
      rewrite lookup_map in Hi.
      destruct (schedule E _ (omap id organic) !! i) as [[url' [t0' t1']]|] eqn:Hsch;
        [|done].
      injection Hi as -> -> ->.
      exists (map (scheduled_entry E)
                  (schedule E (now s + snd (session_post E (now s) q))%nat
                            (omap id organic))),
             (url_content url (slice_to 1000 t)).
      split; [done|]. split.
      { rewrite lookup_map, Hsch. simpl. unfold scheduled_entry. simpl.
        by rewrite Hget, (classify_extracted E 200 html t). }
      destruct (url_content_lookup url (slice_to 1000 t)) as (_ & Hurl & Hcontent).
      split; [done|]. split; [done|]. split.
      * intros Hshort. by rewrite Hcontent, slice_to_short.
      * intros Hlong. exists (slice_to 1000 t). split; [done|].
        rewrite slice_to_length. lia.
    + intros Hlog. apply app_inv_head in Hlog. injection Hlog as _ <-. done.
  - intros entries entry text Hres Hin Htext.
    destruct (search_and_parse_entries E q s entries entry Hres Hin)
      as [[msg ->]|(url & t0 & ->)]; [done|].
    destruct (classify E (fst (session_get E t0 url))) as [text'|k] eqn:Hc;
      [|done].
    assert (text' = text) as ->.
    { destruct (url_content_lookup url text') as (_ & _ & Hl).
      simpl in Htext. congruence. }
    split; [by apply (classify_content E _ _ Hc)|].
    exists url, (slice_to 200 text).
    split; [exact (proj1 (entry_of_lookup url (Content text)))|].
    split; [intros s'; apply narrate_content|].
    split; [done|]. split; [apply slice_to_prefix_bool|].
    split; [apply slice_to_prefix|apply slice_to_length].
Qed.

(** A page of 1200 letters: 1000 are stored, 200 are shown. *)
Lemma truncation_witness :
  (exists entries entry,
      result (search_and_parse Scenario.Elong (PyStr Scenario.weather) (initial 0))
      = Ok entries /\
      entries !! 0 = Some entry /\
      entry !! "url" = Some "http://long.example" /\
      entry !! "content" = Some (slice_to 1000 (Scenario.letters 1200)) /\
      (String.length (Scenario.letters 1200) <= 1000 ->
       entry !! "content" = Some (Scenario.letters 1200)) /\
      (1000 < String.length (Scenario.letters 1200) ->
       exists text, entry !! "content" = Some text /\ String.length text = 1000)) /\
  ((exists html t,
       extract Scenario.Elong html = Ok (Some t) /\
       Scenario.letters 1000 = slice_to 1000 t) /\
   exists url preview,
     url_content "http://long.example" (Scenario.letters 1000) !! "url" = Some url /\
     (forall s',
         narrate (url_content "http://long.example" (Scenario.letters 1000)) s'
         = Run ["Found relevant information from: " +:+ url +:+ nl;
                "Summary: " +:+ preview +:+ "..." +:+ nl +:+ nl]
               s' (Ok tt)) /\
     preview = slice_to 200 (Scenario.letters 1000) /\
     String.prefix preview (Scenario.letters 1000) = true /\
     (exists rest, Scenario.letters 1000 = preview +:+ rest) /\
     String.length preview = min 200 (String.length (Scenario.letters 1000))).
Proof.
  destruct (truncation Scenario.Elong (PyStr Scenario.weather) (initial 0))
    as [Hstore Hshow].
  split.
  - apply (Hstore (EvPost (PyStr Scenario.weather) 0 1) [EvGet "http://long.example" 1 4]
                  0 "http://long.example" 1 4
                  (Scenario.letters 1200) (Scenario.letters 1200)).
    + vm_compute. reflexivity.
    + reflexivity.
    + reflexivity.
    + reflexivity.
    + discriminate.
  - apply (Hshow [url_content "http://long.example" (Scenario.letters 1000)]
                 (url_content "http://long.example" (Scenario.letters 1000))
                 (Scenario.letters 1000)).
    + vm_compute. reflexivity.
    + apply list_elem_of_singleton. reflexivity.
    + reflexivity.
Defined.

Example truncation_lengths :
  String.length (Scenario.letters 1200) = 1200 /\
  String.length (slice_to 1000 (Scenario.letters 1200)) = 1000 /\
  String.length (slice_to 200 (slice_to 1000 (Scenario.letters 1200))) = 200 /\
  slice_to 1000 "Sunny, 21 degrees" = "Sunny, 21 degrees".
Proof. vm_compute. repeat split. Qed.

(** ** The time a run of the pipeline takes *)

(** The time of a run whose search succeeds, split into the search and the
    page requests. *)
Lemma pipeline_metrics E q t organic d :
  session_post E t q = (PostResponse 200 (Ok (BodyOrganic organic)), d) ->
  pipeline_time E q t
  = d + sum_list (map duration
                   (map scheduled_event (schedule E (t + d) (omap id organic)))) /\
  search_time E q t = d /\
  fetch_times E q t
  = map duration (map scheduled_event (schedule E (t + d) (omap id organic))).
Proof.
  intros Hpost. unfold pipeline_time, search_time, fetch_times.
  rewrite search_and_parse_run. simpl. rewrite Hpost. simpl.
  rewrite fetch_loop_run. simpl.
  destruct (schedule_get_events E (omap id organic) (t + d)) as [Hg Hp].
  rewrite schedule_end_sum.
  rewrite Hp. rewrite filter_cons_False by (by intros ?). rewrite Hg.
  simpl. repeat split; lia.
Qed.

Lemma omap_replicate {A} n (x : A) : omap id (replicate n (Some x)) = replicate n x.
Proof. induction n as [|n IH]; [done|]. simpl. by f_equal. Qed.

Lemma max_list_replicate n d : max_list (replicate n d) <= d.
Proof. induction n as [|n IH]; simpl; lia. Qed.

(** C2, as the code has it.  The pages are requested in the loop of line
    57, one after the other: after the search request come one page request
    for each URL, in the order of the URLs; each request is issued when the
    one before has been answered; the pipeline returns when the last one has
    been answered, and the time it has taken is the time of the search plus
    the sum of the times of all page requests. *)
Theorem fetches_in_sequence (E : env) (q : pyval) (s : state)
    (organic : list (option string)) :
  fst (session_post E (now s) q) = PostResponse 200 (Ok (BodyOrganic organic)) ->
  exists t1 gets,
    log (final (search_and_parse E q s))
    = log s ++ EvPost q (now s) t1 :: gets /\
    omap requested gets = omap id organic /\
    length gets = length (omap id organic) /\
    back_to_back (now s) (EvPost q (now s) t1 :: gets)
                 (now (final (search_and_parse E q s))) /\
    now (final (search_and_parse E q s))
    = now s + (t1 - now s) + sum_list (map duration gets).
Proof.
  intros Hpost.
  exists (now s + snd (session_post E (now s) q))%nat,
         (map scheduled_event
              (schedule E (now s + snd (session_post E (now s) q))%nat
                        (omap id organic))).
  rewrite search_and_parse_run, Hpost. simpl. rewrite fetch_loop_run. simpl.
  rewrite <- app_assoc. simpl.
  split; [done|]. split; [apply schedule_requested|].
  split; [by rewrite length_map, schedule_length|].
  split.
  - split; [done|]. split; [lia|]. apply schedule_back_to_back.
  - rewrite schedule_end_sum. lia.
Qed.

(** The three pages of the sample conversation take 3, 10 and 2 units of
    time: with the search the pipeline takes 16. *)
Lemma fetches_in_sequence_witness :
  exists t1 gets,
    log (final (search_and_parse Scenario.E (PyStr Scenario.weather) (initial 0)))
    = log (initial 0) ++ EvPost (PyStr Scenario.weather) (now (initial 0)) t1 :: gets /\
    omap requested gets
    = omap id [Some "http://a.example"; None;
               Some "http://b.example"; Some "http://c.example"] /\
    length gets
    = length (omap id [Some "http://a.example"; None;
                       Some "http://b.example"; Some "http://c.example"]) /\
    back_to_back (now (initial 0))
                 (EvPost (PyStr Scenario.weather) (now (initial 0)) t1 :: gets)
                 (now (final (search_and_parse Scenario.E (PyStr Scenario.weather)
                                               (initial 0)))) /\
    now (final (search_and_parse Scenario.E (PyStr Scenario.weather) (initial 0)))
    = now (initial 0) + (t1 - now (initial 0)) + sum_list (map duration gets).
Proof.
  apply (fetches_in_sequence Scenario.E (PyStr Scenario.weather) (initial 0)
           [Some "http://a.example"; None;
            Some "http://b.example"; Some "http://c.example"]).
  reflexivity.
Defined.

Example fetches_in_sequence_log :
  log (final (search_and_parse Scenario.E (PyStr Scenario.weather) (initial 0)))
  = [EvPost (PyStr Scenario.weather) 0 1;
     EvGet "http://a.example" 1 4;
     EvGet "http://b.example" 4 14;
     EvGet "http://c.example" 14 16] /\
  pipeline_time Scenario.E (PyStr Scenario.weather) 0 = 16 /\
  max_list (fetch_times Scenario.E (PyStr Scenario.weather) 0) = 10.
Proof. vm_compute. repeat split. Qed.

(** C2 as stated fails: no overhead bounds the time of every run by the
    time of its slowest page request.  For the overhead [c], the search that
    finds [c + 2] pages, each fetched in one unit of time, takes [c + 2]
    units after the search. *)
Lemma concurrent_bound_fails : ~ concurrent_bound.
Proof.
  intros [c Hbound].
  specialize (Hbound (Scenario.Emany (c + 2)) (PyStr "q") 0).
  destruct (pipeline_metrics (Scenario.Emany (c + 2)) (PyStr "q") 0
              (replicate (c + 2) (Some "http://a.example")) 1 eq_refl)
    as (Htime & Hsearch & Hfetch).
  rewrite Htime, Hsearch, Hfetch in Hbound.
  rewrite (schedule_durations_const _ 1) in Hbound by done.
  rewrite omap_replicate, length_replicate, sum_list_replicate in Hbound.
  pose proof (max_list_replicate (c + 2) 1). lia.
Qed.

(** ** Beyond the claims: the pipeline *)

(** When the search provider answers 200 with a body [response.json()]
    cannot decode, [search_and_parse] returns the one entry of line 49,
    with the decoder's message, after its one request: no page is requested
    and nothing is raised. *)
Theorem search_body_undecodable (E : env) (q : pyval) (s : state) (e : exn) :
  fst (session_post E (now s) q) = PostResponse 200 (Raise e) ->
  search_and_parse E q s =
  Run [] (State (messages s) (search_performed s)
                (now s + snd (session_post E (now s) q))%nat
                (log s ++ [EvPost q (now s)
                             (now s + snd (session_post E (now s) q))%nat]))
      (Ok [error_entry ("Error during search API request: " +:+ exn_str e)]).
Proof.
  intros Hpost. rewrite search_and_parse_run. simpl. by rewrite Hpost.
Qed.

Lemma search_body_undecodable_witness :
  search_and_parse Edge.Eundecodable (PyStr "q") (initial 0) =
  Run [] (State (messages (initial 0)) (search_performed (initial 0))
                (now (initial 0)
                 + snd (session_post Edge.Eundecodable (now (initial 0)) (PyStr "q")))%nat
                (log (initial 0)
                   ++ [EvPost (PyStr "q") (now (initial 0))
                         (now (initial 0)
                          + snd (session_post Edge.Eundecodable (now (initial 0))
                                              (PyStr "q")))%nat]))
      (Ok [error_entry ("Error during search API request: "
                        +:+ exn_str (Exn OtherError "Expecting value: line 1 column 1 (char 0)"))]).
Proof.
  apply (search_body_undecodable Edge.Eundecodable (PyStr "q") (initial 0)).
  reflexivity.
Defined.

(** [search_and_parse] raises in one case only: the search was answered 200
    with a decoded body on which lines 52-53 raise; it then raises that
    exception.  A failed search request and failed pages never make it
    raise. *)
Theorem pipeline_raises_only_on_malformed_body (E : env) (q : pyval) (s : state)
    (e : exn) :
  result (search_and_parse E q s) = Raise e <->
  fst (session_post E (now s) q) = PostResponse 200 (Ok (BodyMalformed e)).
Proof.
  rewrite search_and_parse_run. simpl.
  destruct (fst (session_post E (now s) q)) as [e'|status [[organic|e']|e']];
    simpl; [by split|..];
    (destruct (Z.eqb_spec status 200) as [->|Hne]; simpl;
     [|split; [done|intros [= ? ?]; congruence]]).
  - rewrite fetch_loop_run. simpl. by split.
  - split; congruence.
  - by split.
Qed.

Lemma pipeline_raises_only_on_malformed_body_witness :
  result (search_and_parse Edge.Emalformed (PyStr "q") (initial 0))
  = Raise (Exn OtherError "'list' object has no attribute 'get'").
Proof.
  apply (pipeline_raises_only_on_malformed_body Edge.Emalformed (PyStr "q") (initial 0)).
  reflexivity.
Defined.

(** Results without a ['link'] are skipped: when none of the organic
    results has one, also when there are no organic results, the pipeline
    returns the empty list after its search request and requests no page. *)
Theorem no_links_no_fetch (E : env) (q : pyval) (s : state)
    (organic : list (option string)) :
  fst (session_post E (now s) q) = PostResponse 200 (Ok (BodyOrganic organic)) ->
  Forall (fun r => r = None) organic ->
  search_and_parse E q s =
  Run [] (State (messages s) (search_performed s)
                (now s + snd (session_post E (now s) q))%nat
                (log s ++ [EvPost q (now s)
                             (now s + snd (session_post E (now s) q))%nat]))
      (Ok []).
Proof.
  intros Hpost Hnone.
  assert (Hurls : omap id organic = []).
  { clear Hpost. induction Hnone as [|r organic -> _ IH]; [done|]. exact IH. }
  rewrite search_and_parse_run. simpl. rewrite Hpost. simpl.
  rewrite Hurls. done.
Qed.

Lemma no_links_no_fetch_witness :
  search_and_parse Edge.Enolinks (PyStr "q") (initial 0) =
  Run [] (State (messages (initial 0)) (search_performed (initial 0))
                (now (initial 0)
                 + snd (session_post Edge.Enolinks (now (initial 0)) (PyStr "q")))%nat
                (log (initial 0)
                   ++ [EvPost (PyStr "q") (now (initial 0))
                         (now (initial 0)
                          + snd (session_post Edge.Enolinks (now (initial 0))
                                              (PyStr "q")))%nat]))
      (Ok []).
Proof.
  apply (no_links_no_fetch Edge.Enolinks (PyStr "q") (initial 0) [None; None]).
  - reflexivity.
  - repeat constructor.
Defined.

(** What a run of the pipeline touches.  It yields nothing, leaves
    [messages] and [search_performed] alone, and calls its collaborators in
    this order: one search request, issued at once, then page requests only;
    it never requests a completion.  It ends no earlier than the search is
    answered, and after a failed search it has requested no page. *)
Theorem pipeline_footprint (E : env) (q : pyval) (s : state) :
  emitted (search_and_parse E q s) = [] /\
  messages (final (search_and_parse E q s)) = messages s /\
  search_performed (final (search_and_parse E q s)) = search_performed s /\
  exists t1 gets,
    log (final (search_and_parse E q s)) = log s ++ EvPost q (now s) t1 :: gets /\
    Forall (fun ev => is_get ev = true) gets /\
    now s <= t1 /\ t1 <= now (final (search_and_parse E q s)) /\
    (forall msg, search_failure (fst (session_post E (now s) q)) = Some msg ->
                 gets = []).
Proof.
  rewrite search_and_parse_run. simpl.
  destruct (search_reply _) as [early|[organic|e]] eqn:Hreply; simpl.
  - repeat split; try done.
    exists (now s + snd (session_post E (now s) q))%nat, [].
    repeat split; try done; lia.
  - rewrite fetch_loop_run. simpl. repeat split; try done.
    exists (now s + snd (session_post E (now s) q))%nat,
           (map scheduled_event
                (schedule E (now s + snd (session_post E (now s) q))%nat
                          (omap id organic))).
    rewrite <- app_assoc. simpl. repeat split; try done.
    + apply Forall_map. by apply Forall_true.
    + lia.
    + rewrite schedule_end_sum. lia.
    + intros msg Hfail. revert Hreply Hfail. unfold search_reply, search_failure.
      destruct (fst (session_post E (now s) q)) as [e|status json]; [done|].
      by destruct (status =? 200)%Z.
  - repeat split; try done.
    exists (now s + snd (session_post E (now s) q))%nat, [].
    repeat split; try done; lia.
Qed.

Lemma pipeline_footprint_witness :
  search_failure (fst (session_post Scenario.E500 (now (initial 0)) (PyStr "q")))
  = Some "Serper API request failed with status code 500" /\
  filter is_get (log (final (search_and_parse Scenario.E500 (PyStr "q") (initial 0))))
  = [].
Proof.
  split; [reflexivity|].
  destruct (pipeline_footprint Scenario.E500 (PyStr "q") (initial 0))
    as (_ & _ & _ & t1 & gets & -> & _ & _ & _ & Hnone).
  rewrite (Hnone "Serper API request failed with status code 500" eq_refl).
  reflexivity.
Defined.

(** ** Beyond the claims: contents and their narration *)

Lemma slice_to_slice_to n m s :
  slice_to n (slice_to m s) = slice_to (min n m) s.
Proof.
  revert m s. induction n as [|n IH]; intros [|m] [|a s]; simpl; try done.
  by rewrite IH.
Qed.

Lemma classify_content_bounds E o text :
  classify E o = Content text ->
  1 <= String.length text /\ String.length text <= 1000.
Proof.
  unfold classify.
  destruct o as [e|status [html|e]]; [done| |by destruct (status =? 200)%Z].
  destruct (status =? 200)%Z; [|done].
  destruct (extract E html) as [t|e]; [|done].
  destruct (truthy t) as [t'|] eqn:Ht; [|done].
  intros Heq. assert (text = slice_to 1000 t') as -> by congruence.
  rewrite slice_to_length.
  destruct t as [[|a x]|]; try done. injection Ht as <-.
  change (String.length (String a x)) with (S (String.length x)). lia.
Qed.

(** An entry of the pipeline never holds an empty content, nor one of more
    than 1000 characters: a page whose extraction is empty has an error
    entry instead. *)
Theorem content_never_empty (E : env) (q : pyval) (s : state)
    (entries : list page_result) (entry : page_result) (text : string) :
  result (search_and_parse E q s) = Ok entries ->
  entry ∈ entries ->
  entry !! "content" = Some text ->
  1 <= String.length text /\ String.length text <= 1000.
Proof.
  intros Hres Hin Htext.
  destruct (search_and_parse_entries E q s entries entry Hres Hin)
    as [[msg ->]|(url & t0 & ->)]; [done|].
  destruct (classify E (fst (session_get E t0 url))) as [text'|k] eqn:Hc;
    [|done].
  destruct (url_content_lookup url text') as (_ & _ & Hl).
  simpl in Htext. rewrite Hl in Htext. injection Htext as <-.
  by apply (classify_content_bounds E _ _ Hc).
Qed.

Lemma content_never_empty_witness :
  1 <= String.length "Sunny, 21 degrees" /\
  String.length "Sunny, 21 degrees" <= 1000.
Proof.
  apply (content_never_empty Scenario.E (PyStr Scenario.weather) (initial 0)
           [url_content "http://a.example" "Sunny, 21 degrees";
            url_error "http://b.example" "Request timed out";
            url_error "http://c.example" "Failed to retrieve content: HTTP 404"]
           (url_content "http://a.example" "Sunny, 21 degrees")).
  - vm_compute. reflexivity.
  - apply list_elem_of_here.
  - reflexivity.
Defined.

(** A page answered 200 whose extraction [t] is not empty: the iteration of
    the loop appends the entry with the first 1000 characters of [t], and
    on this entry the loop of lines 142-147 emits the line naming the URL
    and a summary that shows the first 200 characters of [t] itself,
    followed by ["..."] whether or not anything was cut. *)
Theorem preview_of_extracted_text (E : env) (url html t : string) (s : state) :
  fst (session_get E (now s) url) = GetResponse 200 (Ok html) ->
  extract E html = Ok (Some t) ->
  t <> "" ->
  exists entry,
    result (fetch_one E url s) = Ok entry /\
    entry !! "content" = Some (slice_to 1000 t) /\
    forall s',
      narrate entry s'
      = Run ["Found relevant information from: " +:+ url +:+ nl;
             "Summary: " +:+ slice_to 200 t +:+ "..." +:+ nl +:+ nl]
            s' (Ok tt).
Proof.
  intros Hget Hex Ht. exists (url_content url (slice_to 1000 t)).
  split; [|split].
  - rewrite fetch_one_run, Hget.
    by rewrite (classify_extracted E 200 html t eq_refl Hex Ht).
  - by destruct (url_content_lookup url (slice_to 1000 t)) as (_ & _ & ->).
  - intros s'. rewrite narrate_content. unfold found_line, summary_line.
    by rewrite slice_to_slice_to.
Qed.

Lemma preview_of_extracted_text_witness :
  exists entry,
    result (fetch_one Scenario.Elong "http://long.example" (initial 0)) = Ok entry /\
    entry !! "content" = Some (slice_to 1000 (Scenario.letters 1200)) /\
    forall s',
      narrate entry s'
      = Run ["Found relevant information from: " +:+ "http://long.example" +:+ nl;
             "Summary: " +:+ slice_to 200 (Scenario.letters 1200)
             +:+ "..." +:+ nl +:+ nl]
            s' (Ok tt).
Proof.
  apply (preview_of_extracted_text Scenario.Elong "http://long.example"
           (Scenario.letters 1200) (Scenario.letters 1200) (initial 0)).
  - reflexivity.
  - reflexivity.
  - discriminate.
Defined.

(** The loop of lines 142-147 never raises on what the pipeline returned:
    every entry has an ['error'], or a ['url'] and a ['content'], so no
    [KeyError] arises, the state is left alone, and the fragments are the
    narrations of the entries in order. *)
Theorem narration_never_raises (E : env) (q : pyval) (s s' : state)
    (rs : list page_result) :
  result (search_and_parse E q s) = Ok rs ->
  for_each rs narrate s' = Run (concat (map narration rs)) s' (Ok tt).
Proof.
  intros Hres. apply for_each_emits.
  eapply Forall_impl; [exact (search_and_parse_narratable E q s rs Hres)|].
  intros entry. apply narrate_run.
Qed.

Lemma narration_never_raises_witness :
  for_each [url_content "http://a.example" "Sunny, 21 degrees";
            url_error "http://b.example" "Request timed out";
            url_error "http://c.example" "Failed to retrieve content: HTTP 404"]
           narrate (initial 0)
  = Run (concat (map narration
                   [url_content "http://a.example" "Sunny, 21 degrees";
                    url_error "http://b.example" "Request timed out";
                    url_error "http://c.example" "Failed to retrieve content: HTTP 404"]))
        (initial 0) (Ok tt).
Proof.
  apply (narration_never_raises Scenario.E (PyStr Scenario.weather) (initial 0)).
  vm_compute. reflexivity.
Defined.

(** What lines 143-147 do with a dictionary that lacks a key.  Without
    ['error'] and without ['url'] nothing is emitted and [KeyError('url')]
    is raised; without ['error'], with a ['url'] and without ['content'] the
    line naming the URL is emitted and then [KeyError('content')] is
    raised. *)
Theorem narrate_missing_key (entry : page_result) (s : state) :
  entry !! "error" = None ->
  (entry !! "url" = None ->
   narrate entry s = Run [] s (Raise (Exn OtherError "'url'"))) /\
  (forall url,
      entry !! "url" = Some url -> entry !! "content" = None ->
      narrate entry s
      = Run ["Found relevant information from: " +:+ url +:+ nl] s
            (Raise (Exn OtherError "'content'"))).
Proof.
  intros Herr. unfold narrate, getitem. rewrite Herr. split.
  - intros ->. by rewrite raise_bind.
  - intros url -> ->. rewrite ret_bind, yield_bind. by rewrite raise_bind.
Qed.

Lemma narrate_missing_key_witness :
  narrate (∅ : gmap string string) (initial 0)
  = Run [] (initial 0) (Raise (Exn OtherError "'url'")) /\
  narrate ({[ "url" := "http://a.example" ]} : gmap string string) (initial 0)
  = Run ["Found relevant information from: " +:+ "http://a.example" +:+ nl]
        (initial 0) (Raise (Exn OtherError "'content'")).
Proof.
  split.
  - apply (narrate_missing_key ∅ (initial 0)); reflexivity.
  - apply (narrate_missing_key {[ "url" := "http://a.example" ]} (initial 0));
      reflexivity.
Defined.

(** ** Beyond the claims: the loop over the first stream *)

Lemma for_each_raise_at {A} (body : A -> M unit) pre c post s out s' out' s'' e :
  for_each pre body s = Run out s' (Ok tt) ->
  body c s' = Run out' s'' (Raise e) ->
  for_each (pre ++ c :: post) body s = Run (out ++ out') s'' (Raise e).
Proof.
  intros Hpre Hc. rewrite for_each_app, (bind_ok _ _ _ _ _ _ Hpre). simpl.
  by rewrite (bind_raise _ _ _ _ _ _ Hc).
Qed.

(** A conversation whose first stream reaches, after passive chunks, a
    chunk on which the body of the loop raises. *)
Lemma run_with_raising_chunk E user_prompt t pre c post failure out s' e :
  chat_completions_create E (opening user_prompt) (Some tools)
    = Ok (Stream (pre ++ c :: post) failure) ->
  Forall (fun c => passive c = true) pre ->
  handle_chunk E c (streaming user_prompt (initial t)) = Run out s' (Raise e) ->
  run_conversation E user_prompt (initial t) = Run (texts pre ++ out) s' (Raise e).
Proof.
  intros Hopen Hpre Hc. rewrite run_conversation_run, Hopen. unfold async_for.
  simpl.
  assert (Hloop : for_each (pre ++ c :: post) (handle_chunk E)
                           (streaming user_prompt (initial t))
                  = Run (texts pre ++ out) s' (Raise e)).
  { eapply for_each_raise_at; [|exact Hc]. by apply passive_prefix_run. }
  by rewrite (bind_raise _ _ _ _ _ _ Hloop).
Qed.

(** A first stream all of whose chunks are passive starts no search: each
    chunk has a choice, and its delta has text, or has no tool calls, or has
    a first tool call with a function that is not named [search_and_parse].
    A tool call that comes with text in the same delta is dropped (the text
    is forwarded), a call of another function is dropped without a word, and
    [search_performed] stays unset.  The output is the text of the stream and
    the only call made is the request of the first stream. *)
Theorem passive_stream_path (E : env) (user_prompt : string) (t : nat) (st : stream) :
  chat_completions_create E [system_message; user_message user_prompt] (Some tools)
    = Ok st ->
  Forall (fun c => passive c = true) (stream_chunks st) ->
  run_conversation E user_prompt (initial t) =
  Run (texts (stream_chunks st))
      (State [system_message; user_message user_prompt] false t
             [EvCreate [system_message; user_message user_prompt] (Some tools)])
      (match stream_failure st with Some e => Raise e | None => Ok tt end).
Proof.
  intros Hopen Hpassive. rewrite run_conversation_run. unfold opening.
  rewrite Hopen. unfold async_for.
  assert (Hloop : for_each (stream_chunks st) (handle_chunk E)
                           (streaming user_prompt (initial t))
                  = Run (texts (stream_chunks st))
                        (streaming user_prompt (initial t)) (Ok tt))
    by (by apply passive_prefix_run).
  rewrite (bind_ok _ _ _ _ _ _ Hloop).
  unfold emit_before. destruct (stream_failure st); simpl; by rewrite app_nil_r.
Qed.

Lemma passive_stream_path_witness :
  run_conversation Edge.Epassive "q" (initial 0) =
  Run (texts [Edge.text_and_call_chunk; Edge.other_call; Sample.stop_chunk;
              Sample.text_chunk "."])
      (State [system_message; user_message "q"] false 0
             [EvCreate [system_message; user_message "q"] (Some tools)])
      (Ok tt).
Proof.
  apply (passive_stream_path Edge.Epassive "q" 0
           (Stream [Edge.text_and_call_chunk; Edge.other_call; Sample.stop_chunk;
                    Sample.text_chunk "."] None)).
  - reflexivity.
  - repeat constructor.
Defined.

(** Index errors of the loop.  A chunk without choices raises [IndexError]
    at [choices[0]], in the loop over the first stream and in the loop over
    the second.  A delta without text whose list of tool calls is empty
    raises [IndexError] at [tool_calls[0]] while no search has been
    performed, and is passed over once one has. *)
Theorem index_errors (E : env) (c : chunk) (s : state) :
  (choices c = [] ->
   handle_chunk E c s
   = Run [] s (Raise (Exn OtherError "list index out of range")) /\
   forward_content c s
   = Run [] s (Raise (Exn OtherError "list index out of range"))) /\
  (forall ch rest,
      choices c = ch :: rest ->
      delta_content (choice_delta ch) = None ->
      delta_tool_calls (choice_delta ch) = Some [] ->
      handle_chunk E c s
      = Run [] s (if search_performed s then Ok tt
                  else Raise (Exn OtherError "list index out of range"))).
Proof.
  split.
  - intros Hc. unfold handle_chunk, forward_content. rewrite Hc. simpl.
    by rewrite !raise_bind.
  - intros ch rest Hc Htext Hcalls. unfold handle_chunk. rewrite Hc. simpl.
    rewrite ret_bind, Htext, Hcalls, gets_bind.
    destruct (search_performed s); [done|]. simpl. by rewrite raise_bind.
Qed.

Lemma index_errors_witness :
  (handle_chunk Scenario.E Edge.empty_chunk (initial 0)
   = Run [] (initial 0) (Raise (Exn OtherError "list index out of range")) /\
   forward_content Edge.empty_chunk (initial 0)
   = Run [] (initial 0) (Raise (Exn OtherError "list index out of range"))) /\
  handle_chunk Scenario.E Edge.no_calls_chunk (set_search_performed true (initial 0))
  = Run [] (set_search_performed true (initial 0))
        (if search_performed (set_search_performed true (initial 0)) then Ok tt
         else Raise (Exn OtherError "list index out of range")).
Proof.
  split.
  - apply (index_errors Scenario.E Edge.empty_chunk (initial 0)). reflexivity.
  - apply (proj2 (index_errors Scenario.E Edge.no_calls_chunk
                    (set_search_performed true (initial 0)))
                 (Choice (Delta None (Some []))) []); reflexivity.
Defined.

(** When the body of the loop raises on a chunk the loop has reached,
    whatever came before it in the first stream, a tool call that was
    honoured included, the conversation is over: the chunks that follow are
    never read, whether or not the stream would have ended well, and the
    caller receives the fragments emitted so far followed by the one fragment
    of the failure boundary. *)
Theorem raising_chunk_ends_conversation (E : env) (user_prompt : string) (t : nat)
    (pre post : list chunk) (c : chunk) (failure : option exn) (e : exn) :
  chat_completions_create E [system_message; user_message user_prompt] (Some tools)
    = Ok (Stream (pre ++ c :: post) failure) ->
  result (for_each pre (handle_chunk E) (streaming user_prompt (initial t)))
    = Ok tt ->
  result (handle_chunk E c
            (final (for_each pre (handle_chunk E)
                             (streaming user_prompt (initial t)))))
    = Raise e ->
  run_conversation E user_prompt (initial t) =
  Run (emitted (for_each pre (handle_chunk E) (streaming user_prompt (initial t)))
         ++ emitted (handle_chunk E c
                       (final (for_each pre (handle_chunk E)
                                        (streaming user_prompt (initial t))))))
      (final (handle_chunk E c
                (final (for_each pre (handle_chunk E)
                                 (streaming user_prompt (initial t))))))
      (Raise e) /\
  emitted (generate_stream E user_prompt (initial t)) =
  emitted (for_each pre (handle_chunk E) (streaming user_prompt (initial t)))
    ++ emitted (handle_chunk E c
                  (final (for_each pre (handle_chunk E)
                                   (streaming user_prompt (initial t)))))
    ++ ["An error occurred: " +:+ exn_str e].
Proof.
  intros Hopen Hpre Hc.
  set (s0 := streaming user_prompt (initial t)) in *.
  set (s1 := final (for_each pre (handle_chunk E) s0)) in *.
  assert (Hrun : run_conversation E user_prompt (initial t) =
            Run (emitted (for_each pre (handle_chunk E) s0)
                   ++ emitted (handle_chunk E c s1))
                (final (handle_chunk E c s1)) (Raise e)).
  { rewrite run_conversation_run. unfold opening. rewrite Hopen.
    unfold async_for. simpl. fold s0.
    assert (Hloop : for_each (pre ++ c :: post) (handle_chunk E) s0
                    = Run (emitted (for_each pre (handle_chunk E) s0)
                             ++ emitted (handle_chunk E c s1))
                          (final (handle_chunk E c s1)) (Raise e)).
    { pose proof (run_eta (for_each pre (handle_chunk E) s0)) as Hpre'.
      pose proof (run_eta (handle_chunk E c s1)) as Hc'.
      rewrite Hpre in Hpre'. rewrite Hc in Hc'.
      apply (for_each_raise_at _ pre c post s0 _ s1);
        [exact (eq_sym Hpre')|exact (eq_sym Hc')]. }
    by rewrite (bind_raise _ _ _ _ _ _ Hloop). }
  split; [done|]. rewrite generate_stream_run, Hrun. simpl.
  by rewrite <- app_assoc.
Qed.

(** A chunk without choices after an honoured tool call: the conversation
    ends there, after the second stream has been forwarded. *)
Lemma raising_chunk_ends_conversation_witness :
  run_conversation Edge.Eempty_after_call "q" (initial 0) =
  Run (emitted (for_each [Sample.text_chunk "Let me check.";
                          Sample.call_chunk "search_and_parse" Scenario.weather]
                         (handle_chunk Edge.Eempty_after_call)
                         (streaming "q" (initial 0)))
         ++ emitted (handle_chunk Edge.Eempty_after_call Edge.empty_chunk
                       (final (for_each [Sample.text_chunk "Let me check.";
                                         Sample.call_chunk "search_and_parse"
                                                           Scenario.weather]
                                        (handle_chunk Edge.Eempty_after_call)
                                        (streaming "q" (initial 0))))))
      (final (handle_chunk Edge.Eempty_after_call Edge.empty_chunk
                (final (for_each [Sample.text_chunk "Let me check.";
                                  Sample.call_chunk "search_and_parse"
                                                    Scenario.weather]
                                 (handle_chunk Edge.Eempty_after_call)
                                 (streaming "q" (initial 0))))))
      (Raise (Exn OtherError "list index out of range")) /\
  emitted (generate_stream Edge.Eempty_after_call "q" (initial 0)) =
  emitted (for_each [Sample.text_chunk "Let me check.";
                     Sample.call_chunk "search_and_parse" Scenario.weather]
                    (handle_chunk Edge.Eempty_after_call)
                    (streaming "q" (initial 0)))
    ++ emitted (handle_chunk Edge.Eempty_after_call Edge.empty_chunk
                  (final (for_each [Sample.text_chunk "Let me check.";
                                    Sample.call_chunk "search_and_parse"
                                                      Scenario.weather]
                                   (handle_chunk Edge.Eempty_after_call)
                                   (streaming "q" (initial 0)))))
    ++ ["An error occurred: "
        +:+ exn_str (Exn OtherError "list index out of range")].
Proof.
  apply (raising_chunk_ends_conversation Edge.Eempty_after_call "q" 0
           [Sample.text_chunk "Let me check.";
            Sample.call_chunk "search_and_parse" Scenario.weather]
           [Sample.text_chunk " Done."]
           Edge.empty_chunk None).
  - reflexivity.
  - vm_compute. reflexivity.
  - vm_compute. reflexivity.
Defined.

Example raising_chunk_after_call_output :
  emitted (generate_stream Edge.Eempty_after_call "q" (initial 0))
  = ["Let me check.";
     searching_notice (PyStr Scenario.weather);
     found_line "http://a.example"; summary_line "Sunny, 21 degrees";
     error_line "http://b.example" "Request timed out";
     error_line "http://c.example" "Failed to retrieve content: HTTP 404";
     final_notice; "It is "; "sunny.";
     "An error occurred: list index out of range"].
Proof. vm_compute. reflexivity. Qed.

Example raising_chunk_output :
  emitted (generate_stream Edge.Eempty_choices "q" (initial 0))
  = ["Par"; "An error occurred: list index out of range"].
Proof. reflexivity. Qed.

(** ** Beyond the claims: the tool branch when something fails *)

(** Arguments that do not decode.  When [json.loads] raises on the
    arguments of the honoured call, or decodes them to a value that is not a
    dictionary (so that [.get] raises [AttributeError]), the chunk raises
    before anything is emitted: no notice, no search request, no message
    appended.  [search_performed] is set all the same, line 137 coming
    before line 138. *)
Theorem undecodable_arguments (E : env) (c : chunk) (s : state)
    (fn : function_delta) (e : exn) :
  search_performed s = false ->
  signal c = Some fn ->
  (json_loads E (fn_arguments fn) = Raise e \/
   exists type_name,
     json_loads E (fn_arguments fn) = Ok (JOther type_name) /\
     e = Exn OtherError ("'" +:+ type_name +:+ "' object has no attribute 'get'")) ->
  handle_chunk E c s = Run [] (set_search_performed true s) (Raise e).
Proof.
  intros Hp Hsig Hjson. rewrite (handle_chunk_signal E c fn s Hp Hsig).
  unfold tool_branch. rewrite modify_bind.
  destruct Hjson as [Hjson|(type_name & Hjson & ->)]; rewrite Hjson; simpl.
  - by rewrite raise_bind.
  - rewrite ret_bind. simpl. by rewrite raise_bind.
Qed.

Lemma undecodable_arguments_witness :
  handle_chunk Scenario.E Edge.no_args_call (initial 0)
  = Run [] (set_search_performed true (initial 0))
        (Raise (Exn OtherError
                  "the JSON object must be str, bytes or bytearray, not NoneType")).
Proof.
  apply (undecodable_arguments Scenario.E Edge.no_args_call (initial 0)
           (FunctionDelta (Some "search_and_parse") None)).
  - reflexivity.
  - reflexivity.
  - left. reflexivity.
Defined.

(** When the pipeline raises inside the tool branch, the notice of the
    search has been emitted and nothing else: no narration, no tool-result
    message, no second stream; the exception leaves the chunk. *)
Theorem pipeline_raise_in_tool_branch (E : env) (c : chunk) (s : state)
    (fn : function_delta) (q : pyval) (e : exn) :
  search_performed s = false ->
  signal c = Some fn ->
  json_loads E (fn_arguments fn) = Ok (JDict q) ->
  result (search_and_parse E q (set_search_performed true s)) = Raise e ->
  handle_chunk E c s
  = Run [searching_notice q]
        (final (search_and_parse E q (set_search_performed true s)))
        (Raise e) /\
  messages (final (handle_chunk E c s)) = messages s /\
  creates (log (final (handle_chunk E c s))) = creates (log s).
Proof.
  intros Hp Hsig Hjson Hres.
  assert (Hrun : handle_chunk E c s
                 = Run [searching_notice q]
                       (final (search_and_parse E q (set_search_performed true s)))
                       (Raise e)).
  { rewrite (handle_chunk_signal E c fn s Hp Hsig).
    unfold tool_branch. rewrite modify_bind, Hjson. simpl. rewrite ret_bind.
    simpl. rewrite ret_bind, yield_bind.
    destruct (search_and_parse_frame E q (set_search_performed true s))
      as (Hout & _).
    assert (Hsearch : search_and_parse E q (set_search_performed true s)
                      = Run [] (final (search_and_parse E q (set_search_performed true s)))
                            (Raise e))
      by (by rewrite <- Hout, <- Hres, run_eta).
    by rewrite (bind_raise _ _ _ _ _ _ Hsearch). }
  rewrite Hrun. simpl. split; [done|].
  destruct (search_and_parse_frame E q (set_search_performed true s))
    as (_ & Hm & _ & _).
  destruct (search_and_parse_log E q (set_search_performed true s)) as (Hc & _).
  by rewrite Hm, Hc.
Qed.

Lemma pipeline_raise_in_tool_branch_witness :
  handle_chunk Edge.Emalformed
    (Sample.call_chunk "search_and_parse" Scenario.weather) (initial 0)
  = Run [searching_notice (PyStr Scenario.weather)]
        (final (search_and_parse Edge.Emalformed (PyStr Scenario.weather)
                  (set_search_performed true (initial 0))))
        (Raise (Exn OtherError "'list' object has no attribute 'get'")) /\
  messages (final (handle_chunk Edge.Emalformed
                     (Sample.call_chunk "search_and_parse" Scenario.weather)
                     (initial 0)))
  = messages (initial 0) /\
  creates (log (final (handle_chunk Edge.Emalformed
                         (Sample.call_chunk "search_and_parse" Scenario.weather)
                         (initial 0))))
  = creates (log (initial 0)).
Proof.
  apply (pipeline_raise_in_tool_branch Edge.Emalformed
           (Sample.call_chunk "search_and_parse" Scenario.weather) (initial 0)
           (FunctionDelta (Some "search_and_parse") (Some Scenario.weather))).
  - reflexivity.
  - reflexivity.
  - reflexivity.
  - reflexivity.
Defined.

(** When the request of the second stream raises, the search has been
    announced and narrated and the tool-result message appended; the notice
    of the final response, which line 163 yields after the request, is not
    emitted. *)
Theorem second_stream_unavailable (E : env) (c : chunk) (s : state)
    (fn : function_delta) (q : pyval) (rs : list page_result) (e : exn) :
  search_performed s = false ->
  signal c = Some fn ->
  json_loads E (fn_arguments fn) = Ok (JDict q) ->
  result (search_and_parse E q (set_search_performed true s)) = Ok rs ->
  chat_completions_create E (messages s ++ [tool_message E rs]) None = Raise e ->
  handle_chunk E c s
  = Run (searching_notice q :: concat (map narration rs))
        (add_event (EvCreate (messages s ++ [tool_message E rs]) None)
           (append_message (tool_message E rs)
              (final (search_and_parse E q (set_search_performed true s)))))
        (Raise e).
Proof.
  intros Hp Hsig Hjson Hres Hopen.
  rewrite (handle_chunk_signal E c fn s Hp Hsig).
  unfold tool_branch. rewrite modify_bind, Hjson. simpl. rewrite ret_bind.
  simpl. rewrite ret_bind, yield_bind.
  destruct (search_and_parse_frame E q (set_search_performed true s))
    as (Hout & Hm & _ & _).
  assert (Hsearch : search_and_parse E q (set_search_performed true s)
                    = Run [] (final (search_and_parse E q (set_search_performed true s)))
                          (Ok rs))
    by (by rewrite <- Hout, <- Hres, run_eta).
  rewrite (bind_ok_nil _ _ _ _ _ Hsearch).
  set (s2 := final (search_and_parse E q (set_search_performed true s))) in *.
  assert (Hnarr : for_each rs narrate s2 = Run (concat (map narration rs)) s2 (Ok tt)).
  { apply for_each_emits. eapply Forall_impl;
      [exact (search_and_parse_narratable _ _ _ _ Hres)|].
    intros entry. apply narrate_run. }
  rewrite (bind_ok _ _ _ _ _ _ Hnarr), modify_bind.
  assert (Hfail : create E None (append_message (tool_message E rs) s2)
                  = Run [] (add_event (EvCreate (messages s ++ [tool_message E rs]) None)
                              (append_message (tool_message E rs) s2))
                        (Raise e)).
  { rewrite create_run. simpl. rewrite Hm. simpl. by rewrite Hopen. }
  rewrite (bind_raise _ _ _ _ _ _ Hfail).
  unfold emit_before. simpl. by rewrite app_nil_r.
Qed.

Lemma second_stream_unavailable_witness :
  handle_chunk Edge.Esecond_down
    (Sample.call_chunk "search_and_parse" Scenario.weather) (streaming "q" (initial 0))
  = Run (searching_notice (PyStr Scenario.weather)
           :: concat (map narration
                        [url_content "http://a.example" "Sunny, 21 degrees";
                         url_error "http://b.example" "Request timed out";
                         url_error "http://c.example"
                                   "Failed to retrieve content: HTTP 404"]))
        (add_event
           (EvCreate (messages (streaming "q" (initial 0))
                        ++ [tool_message Edge.Esecond_down
                              [url_content "http://a.example" "Sunny, 21 degrees";
                               url_error "http://b.example" "Request timed out";
                               url_error "http://c.example"
                                         "Failed to retrieve content: HTTP 404"]])
                     None)
           (append_message
              (tool_message Edge.Esecond_down
                 [url_content "http://a.example" "Sunny, 21 degrees";
                  url_error "http://b.example" "Request timed out";
                  url_error "http://c.example" "Failed to retrieve content: HTTP 404"])
              (final (search_and_parse Edge.Esecond_down (PyStr Scenario.weather)
                        (set_search_performed true (streaming "q" (initial 0)))))))
        (Raise (Exn OtherError "Connection error.")).
Proof.
  apply (second_stream_unavailable Edge.Esecond_down
           (Sample.call_chunk "search_and_parse" Scenario.weather)
           (streaming "q" (initial 0))
           (FunctionDelta (Some "search_and_parse") (Some Scenario.weather))).
  - reflexivity.
  - reflexivity.
  - reflexivity.
  - vm_compute. reflexivity.
  - reflexivity.
Defined.

(** When the second stream breaks, the loop over the first stream is not
    resumed: the output ends with the fragments the second stream delivered
    before it broke, the chunks that follow the signal in the first stream
    are never read, and [run_conversation] raises the stream's exception. *)
Theorem second_stream_breaks (E : env) (user_prompt : string) (t : nat)
    (pre post : list chunk) (c : chunk) (failure : option exn)
    (fn : function_delta) (q : pyval) (rs : list page_result) (st2 : stream)
    (e : exn) :
  chat_completions_create E [system_message; user_message user_prompt] (Some tools)
    = Ok (Stream (pre ++ c :: post) failure) ->
  Forall (fun c => passive c = true) pre ->
  signal c = Some fn ->
  json_loads E (fn_arguments fn) = Ok (JDict q) ->
  result (search_and_parse E q
            (set_search_performed true (streaming user_prompt (initial t))))
    = Ok rs ->
  chat_completions_create E
    ([system_message; user_message user_prompt] ++ [tool_message E rs]) None
    = Ok st2 ->
  Forall (fun c => has_choice c = true) (stream_chunks st2) ->
  stream_failure st2 = Some e ->
  run_conversation E user_prompt (initial t) =
  Run (texts pre
         ++ searching_notice q :: concat (map narration rs)
         ++ final_notice :: texts (stream_chunks st2))
      (reinjected E user_prompt t q rs)
      (Raise e).
Proof.
  intros Hopen Hpre Hsig Hjson Hres Hopen2 Hst2 Hbreak.
  apply (run_with_raising_chunk E user_prompt t pre c post failure); try done.
  rewrite (handle_chunk_signal E c fn) by done.
  rewrite (tool_branch_run E fn _ q rs st2) by done.
  by rewrite Hbreak.
Qed.

Lemma second_stream_breaks_witness :
  run_conversation Edge.Esecond_broken "q" (initial 0) =
  Run (texts [Sample.text_chunk "Let me check."]
         ++ searching_notice (PyStr Scenario.weather)
         :: concat (map narration
                      [url_content "http://a.example" "Sunny, 21 degrees";
                       url_error "http://b.example" "Request timed out";
                       url_error "http://c.example"
                                 "Failed to retrieve content: HTTP 404"])
         ++ final_notice :: texts [Sample.text_chunk "It is "])
      (reinjected Edge.Esecond_broken "q" 0 (PyStr Scenario.weather)
         [url_content "http://a.example" "Sunny, 21 degrees";
          url_error "http://b.example" "Request timed out";
          url_error "http://c.example" "Failed to retrieve content: HTTP 404"])
      (Raise (Exn OtherError "peer closed connection")).
Proof.
  apply (second_stream_breaks Edge.Esecond_broken "q" 0
           [Sample.text_chunk "Let me check."]
           [Sample.text_chunk " Done."; Sample.call_chunk "search_and_parse" "again"]
           (Sample.call_chunk "search_and_parse" Scenario.weather)
           None
           (FunctionDelta (Some "search_and_parse") (Some Scenario.weather))
           (PyStr Scenario.weather)
           [url_content "http://a.example" "Sunny, 21 degrees";
            url_error "http://b.example" "Request timed out";
            url_error "http://c.example" "Failed to retrieve content: HTTP 404"]
           (Stream [Sample.text_chunk "It is "]
                   (Some (Exn OtherError "peer closed connection")))).
  - reflexivity.
  - repeat constructor.
  - reflexivity.
  - reflexivity.
  - vm_compute. reflexivity.
  - reflexivity.
  - repeat constructor.
  - reflexivity.
Defined.

(** ** Beyond the claims: the calls of a conversation *)

(** The calls of a conversation whose tool branch runs through, in their
    order: the request of the first stream; the search request, for the
    query that was announced; page requests only; then the request of the
    second stream, made once every page request has been answered.  The
    message the second stream is requested with carries
    [json.dumps] of the list the pipeline returned, the list that was
    narrated to the caller. *)
Theorem tool_conversation_calls (E : env) (user_prompt : string) (t : nat)
    (pre post : list chunk) (c : chunk) (failure : option exn)
    (fn : function_delta) (q : pyval) (rs : list page_result) (st2 : stream) :
  chat_completions_create E [system_message; user_message user_prompt] (Some tools)
    = Ok (Stream (pre ++ c :: post) failure) ->
  Forall (fun c => passive c = true) pre ->
  signal c = Some fn ->
  json_loads E (fn_arguments fn) = Ok (JDict q) ->
  result (search_and_parse E q
            (set_search_performed true (streaming user_prompt (initial t))))
    = Ok rs ->
  chat_completions_create E
    ([system_message; user_message user_prompt] ++ [tool_message E rs]) None
    = Ok st2 ->
  Forall (fun c => has_choice c = true) (stream_chunks st2) ->
  stream_failure st2 = None ->
  Forall (fun c => has_choice c = true) post ->
  exists t1 gets,
    log (final (run_conversation E user_prompt (initial t)))
    = EvCreate [system_message; user_message user_prompt] (Some tools)
      :: EvPost q t t1 :: gets
      ++ [EvCreate [system_message; user_message user_prompt;
                    Message "function" (Some "search_and_parse") (json_dumps E rs)]
                   None] /\
    Forall (fun ev => is_get ev = true) gets /\
    messages (final (run_conversation E user_prompt (initial t)))
    = [system_message; user_message user_prompt;
       Message "function" (Some "search_and_parse") (json_dumps E rs)].
Proof.
  intros Hopen Hpre Hsig Hjson Hres Hopen2 Hst2 Hend Hpost.
  rewrite (run_with_signal E user_prompt t pre c post failure fn q rs st2)
    by done.
  unfold reinjected. simpl.
  destruct (search_and_parse_frame E q
              (set_search_performed true (streaming user_prompt (initial t))))
    as (_ & Hm & _ & t1 & gets & Hlog & Hgets).
  exists t1, gets. rewrite Hlog, Hm. simpl. done.
Qed.

Lemma tool_conversation_calls_witness :
  exists t1 gets,
    log (final (run_conversation Scenario.E "q" (initial 0)))
    = EvCreate [system_message; user_message "q"] (Some tools)
      :: EvPost (PyStr Scenario.weather) 0 t1 :: gets
      ++ [EvCreate [system_message; user_message "q";
                    Message "function" (Some "search_and_parse")
                      (json_dumps Scenario.E
                         [url_content "http://a.example" "Sunny, 21 degrees";
                          url_error "http://b.example" "Request timed out";
                          url_error "http://c.example"
                                    "Failed to retrieve content: HTTP 404"])]
                   None] /\
    Forall (fun ev => is_get ev = true) gets /\
    messages (final (run_conversation Scenario.E "q" (initial 0)))
    = [system_message; user_message "q";
       Message "function" (Some "search_and_parse")
         (json_dumps Scenario.E
            [url_content "http://a.example" "Sunny, 21 degrees";
             url_error "http://b.example" "Request timed out";
             url_error "http://c.example" "Failed to retrieve content: HTTP 404"])].
Proof.
  apply (tool_conversation_calls Scenario.E "q" 0
           [Sample.text_chunk "Let me check."]
           [Sample.text_chunk " Done."; Sample.call_chunk "search_and_parse" "again"]
           (Sample.call_chunk "search_and_parse" Scenario.weather)
           None
           (FunctionDelta (Some "search_and_parse") (Some Scenario.weather))
           (PyStr Scenario.weather)
           [url_content "http://a.example" "Sunny, 21 degrees";
            url_error "http://b.example" "Request timed out";
            url_error "http://c.example" "Failed to retrieve content: HTTP 404"]
           Scenario.stream2).
  - reflexivity.
  - repeat constructor.
  - reflexivity.
  - reflexivity.
  - vm_compute. reflexivity.
  - reflexivity.
  - repeat constructor.
  - reflexivity.
  - repeat constructor.
Defined.

(** When the request of the first stream raises, [run_conversation] raises
    at once: nothing is emitted and no other call is made.  The caller of
    [generate_stream] receives one fragment, the one of the failure
    boundary, and the stream ends. *)
Theorem first_stream_unavailable (E : env) (user_prompt : string) (s : state)
    (e : exn) :
  chat_completions_create E [system_message; user_message user_prompt] (Some tools)
    = Raise e ->
  run_conversation E user_prompt s
  = Run [] (State [system_message; user_message user_prompt]
                  (search_performed s) (now s)
                  (log s ++ [EvCreate [system_message; user_message user_prompt]
                                      (Some tools)]))
        (Raise e) /\
  generate_stream E user_prompt s
  = Run ["An error occurred: " +:+ exn_str e]
        (State [system_message; user_message user_prompt]
               (search_performed s) (now s)
               (log s ++ [EvCreate [system_message; user_message user_prompt]
                                   (Some tools)]))
        (Ok tt).
Proof.
  intros Hopen.
  assert (Hrun : run_conversation E user_prompt s
                 = Run [] (State [system_message; user_message user_prompt]
                                 (search_performed s) (now s)
                                 (log s ++ [EvCreate [system_message;
                                                      user_message user_prompt]
                                                     (Some tools)]))
                       (Raise e)).
  { rewrite run_conversation_run. unfold opening. by rewrite Hopen. }
  split; [done|]. by rewrite generate_stream_run, Hrun.
Qed.

Lemma first_stream_unavailable_witness :
  run_conversation Scenario.Edown "q" (initial 0)
  = Run [] (State [system_message; user_message "q"]
                  (search_performed (initial 0)) (now (initial 0))
                  (log (initial 0) ++ [EvCreate [system_message; user_message "q"]
                                                (Some tools)]))
        (Raise (Exn OtherError "Connection error.")) /\
  generate_stream Scenario.Edown "q" (initial 0)
  = Run ["An error occurred: " +:+ exn_str (Exn OtherError "Connection error.")]
        (State [system_message; user_message "q"]
               (search_performed (initial 0)) (now (initial 0))
               (log (initial 0) ++ [EvCreate [system_message; user_message "q"]
                                             (Some tools)]))
        (Ok tt).
Proof.
  apply (first_stream_unavailable Scenario.Edown "q" (initial 0)).
  reflexivity.
Defined.

(** The query that is announced is the query that is searched.  Whenever
    the arguments of the honoured call decode to a dictionary, the first
    fragment of the chunk announces the value of
    [function_args.get('query')] and the first call made is the search
    request for this same value, whatever happens afterwards.  When the
    dictionary has no ['query'] the value is [None]: the notice reads
    ["Searching the web for: None"] and the provider is asked for [None]. *)
Theorem announced_query_is_searched (E : env) (c : chunk) (s : state)
    (fn : function_delta) (q : pyval) :
  search_performed s = false ->
  signal c = Some fn ->
  json_loads E (fn_arguments fn) = Ok (JDict q) ->
  exists out t1 evs,
    emitted (handle_chunk E c s)
    = (nl +:+ "Searching the web for: " +:+ format_value q +:+ nl) :: out /\
    log (final (handle_chunk E c s)) = log s ++ EvPost q (now s) t1 :: evs.
Proof.
  intros Hp Hsig Hjson. rewrite (handle_chunk_signal E c fn s Hp Hsig).
  unfold tool_branch. rewrite modify_bind, Hjson.
  change (lift (Ok (JDict q))) with (ret (JDict q)). rewrite ret_bind.
  change (get_query (JDict q)) with (ret q). rewrite ret_bind, yield_bind.
  destruct (search_and_parse_frame E q (set_search_performed true s))
    as (_ & _ & _ & t1 & gets & Hlog & _).
  change (log (set_search_performed true s)) with (log s) in Hlog.
  change (now (set_search_performed true s)) with (now s) in Hlog.
  match goal with
  | |- context [emit_before _ ?r] =>
      assert (Hevs : exists evs, log (final r) = log s ++ EvPost q (now s) t1 :: evs)
  end.
  { rewrite bind_final.
    set (s2 := final (search_and_parse E q (set_search_performed true s))) in *.
    destruct (result (search_and_parse E q _)) as [rs|e]; [|by exists gets].
    rewrite bind_final.
    assert (Hloop : final (for_each rs narrate s2) = s2).
    { apply (for_each_preserves (fun s' => s' = s2)); [|done].
      intros entry s' ->. apply narrate_final. }
    rewrite Hloop.
    destruct (result (for_each rs narrate s2)); [|by exists gets].
    rewrite modify_bind, bind_final, create_run.
    exists (gets ++ [EvCreate (messages s2 ++ [tool_message E rs]) None]).
    assert (Hopened :
      log (add_event (EvCreate (messages (append_message (tool_message E rs) s2)) None)
             (append_message (tool_message E rs) s2))
      = log s ++ EvPost q (now s) t1
            :: gets ++ [EvCreate (messages s2 ++ [tool_message E rs]) None]).
    { simpl. rewrite Hlog. by rewrite <- app_assoc. }
    destruct (chat_completions_create E _ None) as [st2|e]; simpl.
    - by rewrite async_for_forward_final.
    - done. }
  destruct Hevs as [evs Hevs]. eexists _, t1, evs.
  split; [reflexivity|exact Hevs].
Qed.

Lemma announced_query_is_searched_witness :
  exists out t1 evs,
    emitted (handle_chunk Edge.Enoquery
               (Sample.call_chunk "search_and_parse" "{}") (initial 0))
    = (nl +:+ "Searching the web for: " +:+ "None" +:+ nl) :: out /\
    log (final (handle_chunk Edge.Enoquery
                  (Sample.call_chunk "search_and_parse" "{}") (initial 0)))
    = log (initial 0) ++ EvPost PyNone (now (initial 0)) t1 :: evs.
Proof.
  apply (announced_query_is_searched Edge.Enoquery
           (Sample.call_chunk "search_and_parse" "{}") (initial 0)
           (FunctionDelta (Some "search_and_parse") (Some "{}")) PyNone).
  - reflexivity.
  - reflexivity.
  - reflexivity.
Defined.
